(** * pr_tool.py: checking out pull requests and pruning local branches

    A shallow embedding of [pr_tool.py].  The script is a sequence of shell
    commands (git), one HTTP GET and prints, glued by string processing.
    The embedding keeps that shape:

    - Python [str] values are Rocq strings, one character per code point
      (code points below 256), with the string methods the script calls
      ([strip], [lstrip], [splitlines], [split], [in]) written out;
    - the decoded JSON document is an inductive type, with Python's
      [dict.get], subscripting and truthiness on it;
    - the process runner and [urlopen] are oracles over an abstract world;
      every call is recorded in a trace of events, which is what a fake
      process runner would record;
    - exceptions ([KeyError], [CalledProcessError], [SystemExit], ...) are
      values of an error monad. *)

From Stdlib Require Import String Ascii List ZArith Bool Lia.
From Stdlib Require Import DecimalString SpecFloat.
Import ListNotations.
Open Scope string_scope.

(* ================================================================== *)
(** ** Python string methods *)
(* ================================================================== *)

Module PyStr.

(** [str.isspace] on one character, for code points below 256:
    TAB, LF, VT, FF, CR, FS, GS, RS, US, SPACE, NEL and NBSP. *)
Definition is_space (c : ascii) : bool :=
  let n := nat_of_ascii c in
  (((9 <=? n) && (n <=? 13)) || ((28 <=? n) && (n <=? 32))
   || (n =? 133) || (n =? 160))%nat.

(** Line boundaries of [str.splitlines] other than CR (which may pair with
    a following LF): LF, VT, FF, FS, GS, RS and NEL. *)
Definition is_linebreak (c : ascii) : bool :=
  let n := nat_of_ascii c in
  (((10 <=? n) && (n <=? 12)) || ((28 <=? n) && (n <=? 30))
   || (n =? 133))%nat.

Definition is_cr (c : ascii) : bool := (nat_of_ascii c =? 13)%nat.
Definition is_lf (c : ascii) : bool := (nat_of_ascii c =? 10)%nat.

(** [c in chars] for a character. *)
Fixpoint mem_char (c : ascii) (chars : string) : bool :=
  match chars with
  | EmptyString => false
  | String d rest => Ascii.eqb c d || mem_char c rest
  end.

(** [s.lstrip()] *)
Fixpoint lstrip (s : string) : string :=
  match s with
  | EmptyString => EmptyString
  | String c s' => if is_space c then lstrip s' else s
  end.

(** [s.rstrip()] *)
Fixpoint rstrip (s : string) : string :=
  match s with
  | EmptyString => EmptyString
  | String c s' =>
      match rstrip s' with
      | EmptyString => if is_space c then EmptyString else String c EmptyString
      | r => String c r
      end
  end.

(** [s.strip()] *)
Definition strip (s : string) : string := rstrip (lstrip s).

(** [s.lstrip(chars)]: drops every leading character that occurs in
    [chars]; the argument is a set of characters, not a prefix. *)
Fixpoint lstrip_chars (chars s : string) : string :=
  match s with
  | EmptyString => EmptyString
  | String c s' => if mem_char c chars then lstrip_chars chars s' else s
  end.

(** [s.splitlines()]: no line for a trailing boundary, CR LF is one
    boundary, the empty string has no lines. *)
Fixpoint splitlines (s : string) : list string :=
  match s with
  | EmptyString => []
  | String c s' =>
      if is_cr c then
        match s' with
        | String c' s'' =>
            if is_lf c' then EmptyString :: splitlines s''
            else EmptyString :: splitlines s'
        | EmptyString => [EmptyString]
        end
      else if is_linebreak c then EmptyString :: splitlines s'
      else
        match splitlines s' with
        | [] => [String c EmptyString]
        | l :: ls => String c l :: ls
        end
  end.

(** [s.split()]: the maximal runs of non-whitespace characters. *)
Fixpoint split (s : string) : list string :=
  match s with
  | EmptyString => []
  | String c s' =>
      if is_space c then split s'
      else
        match s' with
        | EmptyString => [String c EmptyString]
        | String c' _ =>
            if is_space c' then String c EmptyString :: split s'
            else
              match split s' with
              | [] => [String c EmptyString]
              | t :: ts => String c t :: ts
              end
        end
  end.

(** [sub in s] *)
Fixpoint contains (sub s : string) : bool :=
  if String.prefix sub s then true
  else
    match s with
    | EmptyString => false
    | String _ s' => contains sub s'
    end.

(** [x in l] for a list of strings. *)
Fixpoint mem (x : string) (l : list string) : bool :=
  match l with
  | [] => false
  | y :: l' => String.eqb x y || mem x l'
  end.

End PyStr.


(* ================================================================== *)
(** ** Decoded JSON and the Python operations on it *)
(* ================================================================== *)

(** What [json.load] returns: [None], [bool], [int], [float], [str],
    [list] or [dict].  A dict is its list of bindings; a lookup takes the
    first binding of a key. *)
#[warnings="-register-all"]
Inductive json : Type :=
| JNull
| JBool (b : bool)
| JInt (z : Z)
| JFloat (f : spec_float)
| JStr (s : string)
| JArr (items : list json)
| JObj (fields : list (string * json)).

(** Python exceptions the script can meet. *)
Inductive exn : Type :=
| SystemExit (code : Z)
| HTTPError (code : Z) (msg : string)
| URLError (reason : string)
| JSONDecodeError (msg : string)
| KeyError (key : string)
| TypeError
| AttributeError
| IndexError
| CalledProcessError (returncode : Z) (cmd : string).

Inductive result (A : Type) : Type :=
| Ret (a : A)
| Raise (e : exn).
Arguments Ret {A} a.
Arguments Raise {A} e.

Module Py.

Fixpoint lookup (k : string) (fields : list (string * json)) : option json :=
  match fields with
  | [] => None
  | (k', v) :: rest => if String.eqb k k' then Some v else lookup k rest
  end.

(** [bool(v)] *)
Definition truthy (v : json) : bool :=
  match v with
  | JNull => false
  | JBool b => b
  | JInt z => negb (Z.eqb z 0)
  | JFloat (S754_zero _) => false
  | JFloat _ => true
  | JStr s => negb (String.eqb s "")
  | JArr items => match items with [] => false | _ => true end
  | JObj fields => match fields with [] => false | _ => true end
  end.

(** [dict.get(k, default)] on the bindings of a dict. *)
Definition dict_get (fields : list (string * json)) (k : string)
    (default : json) : json :=
  match lookup k fields with
  | Some x => x
  | None => default
  end.

(** [v.get(k, default)]: only a dict has the method. *)
Definition get (v : json) (k : string) (default : json) : result json :=
  match v with
  | JObj fields => Ret (dict_get fields k default)
  | _ => Raise AttributeError
  end.

(** [v[k]] for a string key [k]. *)
Definition getitem (v : json) (k : string) : result json :=
  match v with
  | JObj fields =>
      match lookup k fields with
      | Some x => Ret x
      | None => Raise (KeyError k)
      end
  | _ => Raise TypeError
  end.

(** [v == s] for a [str] [s]. *)
Definition eq_str (v : json) (s : string) : bool :=
  match v with
  | JStr t => String.eqb t s
  | _ => false
  end.

(** [o == v] where [o] is [None] or a [str] (what [run_cmd] returns). *)
Definition eq_opt (o : option string) (v : json) : bool :=
  match o, v with
  | Some s, JStr t => String.eqb s t
  | None, JNull => true
  | _, _ => false
  end.

(** [s == o] for a [str] [s] and [o] that is [None] or a [str]. *)
Definition str_eq_opt (s : string) (o : option string) : bool :=
  match o with
  | Some t => String.eqb s t
  | None => false
  end.

Definition str_of_Z (z : Z) : string := NilZero.string_of_int (Z.to_int z).

(** [str(v)], as an f-string interpolates it.  [repr] gives the text of
    floats, lists and dicts, which the script never builds itself. *)
Definition format (repr : json -> string) (v : json) : string :=
  match v with
  | JNull => "None"
  | JBool true => "True"
  | JBool false => "False"
  | JInt z => str_of_Z z
  | JStr s => s
  | _ => repr v
  end.

(** [str(e)] of an [HTTPError]. *)
Definition str_HTTPError (code : Z) (msg : string) : string :=
  "HTTP Error " ++ str_of_Z code ++ ": " ++ msg.

End Py.

(* ================================================================== *)
(** ** The environment and the effect monad *)
(* ================================================================== *)

(** What the outside world answers.  [sh cmd w] runs [cmd] in a subshell
    of world [w]: return code, standard output, next world.
    [urlopen_json url w] is [json.load(urlopen(Request(url, ...)))]: the
    decoded body, or the exception raised on the way. *)
Record Env : Type := {
  world : Type;
  sh : string -> world -> Z * string * world;
  urlopen_json : string -> world -> result json * world;
  repr : json -> string
}.

(** What an observer of the process sees. *)
Inductive event : Type :=
| EPrint (line : string)
| EHelp
| EHttp (url : string)
| ERun (cmd : string) (returncode : Z) (stdout : string).

Definition is_http (e : event) : bool :=
  match e with EHttp _ => true | _ => false end.

(** The shell commands of a trace, in order: the record of a fake
    process runner. *)
Fixpoint commands (t : list event) : list string :=
  match t with
  | [] => []
  | ERun cmd _ _ :: t' => cmd :: commands t'
  | _ :: t' => commands t'
  end.

(** Exit status of the interpreter: 0 on a normal return, the code of a
    [SystemExit], 1 after a traceback for any other exception. *)
Definition exit_status {A} (r : result A) : Z :=
  match r with
  | Ret _ => 0
  | Raise (SystemExit code) => code
  | Raise _ => 1
  end.

Definition ESC : string := String (ascii_of_nat 27) EmptyString.

Section Script.

Variable E : Env.

(** A computation of the script: from a world to a result, the next world
    and the events it caused, oldest first. *)
Definition M (A : Type) : Type := world E -> result A * world E * list event.

Definition ret {A} (a : A) : M A := fun w => (Ret a, w, []).

Definition raise {A} (e : exn) : M A := fun w => (Raise e, w, []).

Definition bind {A B} (m : M A) (k : A -> M B) : M B :=
  fun w =>
    let '(r, w1, t1) := m w in
    match r with
    | Ret a => let '(r2, w2, t2) := k a w1 in (r2, w2, (t1 ++ t2)%list)
    | Raise e => (Raise e, w1, t1)
    end.

(** A pure Python expression that may raise. *)
Definition lift {A} (r : result A) : M A := fun w => (r, w, []).

(** [try: body / except HTTPError as e: handler e]; every other
    exception passes through. *)
Definition try_except_HTTPError {A} (body : M A)
    (handler : Z -> string -> M A) : M A :=
  fun w =>
    let '(r, w1, t1) := body w in
    match r with
    | Raise (HTTPError code msg) =>
        let '(r2, w2, t2) := handler code msg w1 in (r2, w2, (t1 ++ t2)%list)
    | _ => (r, w1, t1)
    end.

Definition print (line : string) : M unit := fun w => (Ret tt, w, [EPrint line]).

Definition sys_exit {A} (code : Z) : M A := raise (SystemExit code).

End Script.

Arguments ret {E A} a.
Arguments raise {E A} e.
Arguments bind {E A B} m k.
Arguments lift {E A} r.
Arguments try_except_HTTPError {E A} body handler.
Arguments print {E} line.
Arguments sys_exit {E A} code.

Declare Scope py_scope.
Delimit Scope py_scope with py.
Notation "x <- m ;; k" := (bind m (fun x => k))
  (at level 61, m at next level, right associativity) : py_scope.
Notation "m ;;; k" := (bind m (fun _ => k))
  (at level 61, right associativity) : py_scope.
Open Scope py_scope.

Definition trace_of {A W} (x : result A * W * list event) : list event := snd x.
Definition result_of {A W} (x : result A * W * list event) : result A := fst (fst x).
Definition world_of {A W} (x : result A * W * list event) : W := snd (fst x).

Section Tool.

Variable E : Env.

(** [run_cmd]: [subprocess.run(cmd, shell=True, check=check, text=True,
    capture_output=capture_output)]; with [check] a non-zero return code
    raises [CalledProcessError]. *)
Definition run_cmd (cmd : string) (check capture_output : bool)
  : M E (option string) :=
  fun w =>
    let '(rc, out, w') := sh E cmd w in
    if check && negb (Z.eqb rc 0)
    then (Raise (CalledProcessError rc cmd), w', [ERun cmd rc out])
    else (Ret (if capture_output then Some (PyStr.strip out) else None),
          w', [ERun cmd rc out]).

(** [x.splitlines()] on what [run_cmd] returned. *)
Definition opt_splitlines (x : option string) : M E (list string) :=
  match x with
  | Some s => ret (PyStr.splitlines s)
  | None => raise AttributeError
  end.

Definition pr_url (owner repo pr_number : string) : string :=
  "https://projects.blender.org/api/v1/repos/" ++ owner ++ "/" ++ repo
  ++ "/pulls/" ++ pr_number.

Definition http_get (url : string) : M E json :=
  fun w =>
    let '(r, w') := urlopen_json E url w in (r, w', [EHttp url]).

Definition fetch_pr_json (owner repo pr_number : string) : M E json :=
  let url := pr_url owner repo pr_number in
  try_except_HTTPError (http_get url)
    (fun code msg =>
       print (ESC ++ "[91mError fetching PR data: "
              ++ Py.str_HTTPError code msg ++ ESC ++ "[0m") ;;;
       sys_exit 1).

(** The f-string of line 57. *)
Definition local_branch_name (pr_number pr_author pr_branch : string) : string :=
  "PR/" ++ pr_number ++ "/" ++ pr_author ++ "-" ++ pr_branch.

Definition fmt (v : json) : string := Py.format (repr E) v.

(** Line 69: [[b.strip().lstrip('* ') for b in existing_branches]]. *)
Definition strip_marker (b : string) : string :=
  PyStr.lstrip_chars "* " (PyStr.strip b).

(** Lines 64-66: go to the base branch unless it is the current one. *)
Definition checkout_base (base_branch : json) : M E unit :=
  current_branch <- run_cmd "git branch --show-current" true true ;;
  if negb (Py.eq_opt current_branch base_branch)
  then run_cmd ("git checkout " ++ fmt base_branch) true false ;;; ret tt
  else ret tt.

(** Lines 68-74: force-delete the local branch when the listing has it. *)
Definition delete_existing (local_branch : string) : M E unit :=
  listing <- run_cmd "git branch" true true ;;
  existing_branches <- opt_splitlines listing ;;
  let existing_branches := map strip_marker existing_branches in
  if PyStr.mem local_branch existing_branches then
    print (ESC ++ "[95mBranch " ++ local_branch ++ " exists, refreshing it." ++ ESC ++ "[0m") ;;;
    run_cmd ("git branch -D " ++ local_branch) true false ;;; ret tt
  else
    print (ESC ++ "[96mBranch " ++ local_branch ++ " does not exist." ++ ESC ++ "[0m").

(** Lines 76-80: create the local branch from the base and pull the
    pull request into it. *)
Definition create_and_pull (pr_number : string) (pr_data : json)
    (local_branch : string) (pr_repo pr_branch base_branch : json) : M E unit :=
  run_cmd ("git checkout -b " ++ local_branch ++ " " ++ fmt base_branch) true false ;;;
  run_cmd ("git pull --no-rebase --ff --no-edit --commit https://projects.blender.org/"
           ++ fmt pr_repo ++ " " ++ fmt pr_branch) true false ;;;
  print (ESC ++ "[95mBranch " ++ local_branch ++ " is ready for use." ++ ESC ++ "[0m") ;;;
  title <- lift (Py.getitem pr_data "title") ;;
  print (ESC ++ "[94mPulled PR #" ++ pr_number ++ ": " ++ fmt title ++ ESC ++ "[0m").

(** Lines 64-80: the git commands of an open pull request. *)
Definition refresh_local_branch (pr_number : string) (pr_data : json)
    (local_branch : string) (pr_repo pr_branch base_branch : json) : M E unit :=
  checkout_base base_branch ;;;
  delete_existing local_branch ;;;
  create_and_pull pr_number pr_data local_branch pr_repo pr_branch base_branch.

(** Lines 41-62, then the commands above. *)
Definition checkout_pr (pr_number owner repo : string) : M E unit :=
  pr_data <- fetch_pr_json owner repo pr_number ;;
  merged <- lift (Py.get pr_data "merged" JNull) ;;
  if Py.truthy merged then
    print (ESC ++ "[92mPR #" ++ pr_number ++ " is already merged." ++ ESC ++ "[0m") ;;;
    merged_at <- lift (Py.get pr_data "merged_at" JNull) ;;
    print ("Merged at: " ++ fmt merged_at) ;;;
    merged_by <- lift (Py.get pr_data "merged_by" (JObj [])) ;;
    full_name <- lift (Py.get merged_by "full_name" JNull) ;;
    print ("Merged by: " ++ fmt full_name) ;;;
    ret tt
  else
    state <- lift (Py.get pr_data "state" JNull) ;;
    if Py.eq_str state "closed" then
      print (ESC ++ "[91mPR #" ++ pr_number ++ " is closed." ++ ESC ++ "[0m") ;;;
      ret tt
    else
      head <- lift (Py.getitem pr_data "head") ;;
      head_repo <- lift (Py.getitem head "repo") ;;
      pr_repo <- lift (Py.getitem head_repo "full_name") ;;
      head <- lift (Py.getitem pr_data "head") ;;
      head_repo <- lift (Py.getitem head "repo") ;;
      head_owner <- lift (Py.getitem head_repo "owner") ;;
      pr_author <- lift (Py.getitem head_owner "username") ;;
      head <- lift (Py.getitem pr_data "head") ;;
      pr_branch <- lift (Py.getitem head "ref") ;;
      base <- lift (Py.getitem pr_data "base") ;;
      base_branch <- lift (Py.getitem base "ref") ;;
      let local_branch :=
        local_branch_name pr_number (fmt pr_author) (fmt pr_branch) in
      title <- lift (Py.getitem pr_data "title") ;;
      print (ESC ++ "[95mPulling PR #" ++ pr_number ++ ": " ++ fmt title ++ ESC ++ "[0m") ;;;
      print (ESC ++ "[90mIncoming branch: " ++ fmt pr_repo ++ ESC ++ "[0m") ;;;
      print (ESC ++ "[90mBase branch   : " ++ fmt base_branch ++ ESC ++ "[0m") ;;;
      print (ESC ++ "[90mLocal branch  : " ++ local_branch ++ ESC ++ "[0m") ;;;
      refresh_local_branch pr_number pr_data local_branch pr_repo pr_branch base_branch.

(** Lines 87-91: the loop over the branches merged into the current one. *)
Fixpoint prune_merged_loop (current_branch : option string)
    (merged_branches : list string) : M E unit :=
  match merged_branches with
  | [] => ret tt
  | branch :: rest =>
      let branch := strip_marker branch in
      (if negb (String.eqb branch "")
          && negb (Py.str_eq_opt branch current_branch)
          && negb (String.eqb branch "main")
          && negb (String.eqb branch "master")
       then
         run_cmd ("git branch -d " ++ branch) true false ;;;
         print (ESC ++ "[92mDeleted merged branch: " ++ branch ++ ESC ++ "[0m")
       else ret tt) ;;;
      prune_merged_loop current_branch rest
  end.

(** Lines 96-100: the loop over the verbose listing. *)
Fixpoint prune_gone_loop (gone_branches : list string) : M E unit :=
  match gone_branches with
  | [] => ret tt
  | line :: rest =>
      (if PyStr.contains "[gone]" line then
         match PyStr.split line with
         | [] => raise IndexError
         | branch :: _ =>
             run_cmd ("git branch -D " ++ branch) true false ;;;
             print (ESC ++ "[92mDeleted stale branch: " ++ branch ++ ESC ++ "[0m")
         end
       else ret tt) ;;;
      prune_gone_loop rest
  end.

Definition prune_branches : M E unit :=
  print (ESC ++ "[93mPruning local branches..." ++ ESC ++ "[0m") ;;;
  merged <- run_cmd "git branch --merged" true true ;;
  merged_branches <- opt_splitlines merged ;;
  current_branch <- run_cmd "git branch --show-current" true true ;;
  prune_merged_loop current_branch merged_branches ;;;
  run_cmd "git fetch --prune" true false ;;;
  verbose <- run_cmd "git branch -vv" true true ;;
  gone_branches <- opt_splitlines verbose ;;
  prune_gone_loop gone_branches.

(** The namespace [parser.parse_args()] returns. *)
Record Namespace : Type := {
  pr_number : option string;
  owner : string;
  repo : string;
  prune : bool
}.

(** The namespace of an empty command line, from the [add_argument]
    declarations of lines 117-120. *)
Definition default_args : Namespace :=
  {| pr_number := None; owner := "blender"; repo := "blender"; prune := false |}.

Definition print_help : M E unit := fun w => (Ret tt, w, [EHelp]).

(** Lines 124-129, on the parsed arguments; [elif args.pr_number:] is
    false for [None] and for the empty string. *)
Definition main (args : Namespace) : M E unit :=
  if prune args then prune_branches
  else
    match pr_number args with
    | Some n =>
        if negb (String.eqb n "") then checkout_pr n (owner args) (repo args)
        else print_help
    | None => print_help
    end.

End Tool.

(* ================================================================== *)
(** ** A fake environment *)
(* ================================================================== *)

(** A process runner with canned answers: the first entry of [table] for
    the command, return code 0 and no output otherwise.  The world counts
    the calls made. *)
Fixpoint canned (table : list (string * (Z * string))) (cmd : string)
  : Z * string :=
  match table with
  | [] => (0%Z, "")
  | (c, answer) :: rest => if String.eqb cmd c then answer else canned rest cmd
  end.

Definition fake_env (table : list (string * (Z * string)))
    (response : result json) : Env :=
  {| world := nat;
     sh := fun cmd w => (canned table cmd, S w);
     urlopen_json := fun _ w => (response, S w);
     repr := fun _ => "<value>" |}.

Definition nl : string := String (ascii_of_nat 10) EmptyString.
Definition cr : string := String (ascii_of_nat 13) EmptyString.

(** A repository on branch [dev]: [main], [master] and [old] are merged;
    the verbose listing marks [dev], [main] and [old-feature] as gone. *)
Definition prune_env : Env :=
  fake_env
    [("git branch --show-current", (0%Z, "dev" ++ nl));
     ("git branch --merged",
      (0%Z, "* dev" ++ nl ++ "  main" ++ nl ++ "  old" ++ nl ++ "  master" ++ nl));
     ("git branch -vv",
      (0%Z, "* dev         1a2b3c4 [gone] wip" ++ nl
            ++ "  main        0123abc [gone] msg" ++ nl
            ++ "  old-feature  0123abc [gone] commit msg" ++ nl))]
    (Ret JNull).

(** An open pull request, number 42, by [alice] from [feature-x] into
    [main]. *)
Definition alice_pr : json :=
  JObj [("merged", JBool false); ("state", JStr "open"); ("title", JStr "Fix");
        ("head", JObj [("ref", JStr "feature-x");
                       ("repo", JObj [("full_name", JStr "alice/blender");
                                      ("owner", JObj [("username", JStr "alice")])])]);
        ("base", JObj [("ref", JStr "main")])].

(** On [dev], with a stale local branch of the pull request. *)
Definition stale_env : Env :=
  fake_env
    [("git branch --show-current", (0%Z, "dev" ++ nl));
     ("git branch",
      (0%Z, "* dev" ++ nl ++ "  main" ++ nl ++ "  PR/42/alice-feature-x" ++ nl))]
    (Ret alice_pr).

(** On [main], without a local branch of the pull request. *)
Definition fresh_env : Env :=
  fake_env
    [("git branch --show-current", (0%Z, "main" ++ nl));
     ("git branch", (0%Z, "  dev" ++ nl ++ "* main" ++ nl))]
    (Ret alice_pr).




(** The forge answers 404; the forge cannot be reached. *)
Definition not_found_env : Env := fake_env [] (Raise (HTTPError 404 "Not Found")).
Definition refused_env : Env :=
  fake_env [] (Raise (URLError "[Errno 111] Connection refused")).

(** Command lines: [pr_tool.py 42 --prune], [pr_tool.py 42] and
    [pr_tool.py ""]. *)
Definition args_prune_42 : Namespace :=
  {| pr_number := Some "42"; owner := "blender"; repo := "blender"; prune := true |}.
Definition args_42 : Namespace :=
  {| pr_number := Some "42"; owner := "blender"; repo := "blender"; prune := false |}.
Definition args_empty : Namespace :=
  {| pr_number := Some ""; owner := "blender"; repo := "blender"; prune := false |}.

Definition pr42 : string :=
  "https://projects.blender.org/api/v1/repos/blender/blender/pulls/42".

(** A repository on branch [dev] where only [main] is marked as gone. *)
Definition gone_main_env : Env :=
  fake_env
    [("git branch --show-current", (0%Z, "dev" ++ nl));
     ("git branch --merged", (0%Z, "* dev" ++ nl ++ "  main" ++ nl));
     ("git branch -vv",
      (0%Z, "* dev   1a2b3c4 [origin/dev] wip" ++ nl
            ++ "  main  0123abc [gone] msg" ++ nl))]
    (Ret JNull).

(* ================================================================== *)
(** ** Vocabulary of the statements *)
(* ================================================================== *)

(** [v[k1][k2]...] *)
Fixpoint subscript (v : json) (path : list string) : result json :=
  match path with
  | [] => Ret v
  | k :: rest =>
      match Py.getitem v k with
      | Ret x => subscript x rest
      | Raise e => Raise e
      end
  end.

(** [bool(pr_data.get('merged'))] and [pr_data.get('state') == 'closed']
    on the bindings of the PR record. *)
Definition merged_flag (fields : list (string * json)) : bool :=
  Py.truthy (Py.dict_get fields "merged" JNull).
Definition closed_flag (fields : list (string * json)) : bool :=
  Py.eq_str (Py.dict_get fields "state" JNull) "closed".

(** The fetch answered with a record that is neither merged nor closed
    and has the five fields the open path subscripts. *)
Definition open_pr (E : Env) (n owner repo : string) (w : world E)
    (fields : list (string * json)) (w0 : world E)
    (pr_repo pr_author pr_branch base_branch title : json) : Prop :=
  urlopen_json E (pr_url owner repo n) w = (Ret (JObj fields), w0)
  /\ merged_flag fields = false
  /\ closed_flag fields = false
  /\ subscript (JObj fields) ["head"; "repo"; "full_name"] = Ret pr_repo
  /\ subscript (JObj fields) ["head"; "repo"; "owner"; "username"] = Ret pr_author
  /\ subscript (JObj fields) ["head"; "ref"] = Ret pr_branch
  /\ subscript (JObj fields) ["base"; "ref"] = Ret base_branch
  /\ subscript (JObj fields) ["title"] = Ret title.


(** The four lines printed for an open pull request (lines 59-62). *)
Definition banner (E : Env) (pr_number : string)
    (title pr_repo base_branch : json) (local_branch : string) : list event :=
  [EPrint (ESC ++ "[95mPulling PR #" ++ pr_number ++ ": " ++ fmt E title ++ ESC ++ "[0m");
   EPrint (ESC ++ "[90mIncoming branch: " ++ fmt E pr_repo ++ ESC ++ "[0m");
   EPrint (ESC ++ "[90mBase branch   : " ++ fmt E base_branch ++ ESC ++ "[0m");
   EPrint (ESC ++ "[90mLocal branch  : " ++ local_branch ++ ESC ++ "[0m")].

(** The first run of [cmd] in a trace: its return code, its output and
    the events after it. *)
Fixpoint first_run (cmd : string) (t : list event)
  : option (Z * string * list event) :=
  match t with
  | [] => None
  | ERun c rc out :: t' =>
      if String.eqb c cmd then Some (rc, out, t') else first_run cmd t'
  | _ :: t' => first_run cmd t'
  end.

(** Every command of the trace returned 0. *)
Fixpoint all_succeeded (t : list event) : bool :=
  match t with
  | [] => true
  | ERun _ rc _ :: t' => Z.eqb rc 0 && all_succeeded t'
  | _ :: t' => all_succeeded t'
  end.

Definition first_token (line : string) : option string :=
  match PyStr.split line with
  | [] => None
  | t :: _ => Some t
  end.

(** The branches the verbose listing marks as gone, in the spec's words:
    of every line that contains [[gone]], the first token. *)
Fixpoint gone_branch_names (lines : list string) : list string :=
  match lines with
  | [] => []
  | line :: rest =>
      if PyStr.contains "[gone]" line then
        match first_token line with
        | Some b => b :: gone_branch_names rest
        | None => gone_branch_names rest
        end
      else gone_branch_names rest
  end.

Definition to_base (E : Env) (base_branch : json) : string :=
  "git checkout " ++ fmt E base_branch.
Definition create_branch (E : Env) (local_branch : string) (base_branch : json)
  : string :=
  "git checkout -b " ++ local_branch ++ " " ++ fmt E base_branch.
Definition pull_pr (E : Env) (pr_repo pr_branch : json) : string :=
  "git pull --no-rebase --ff --no-edit --commit https://projects.blender.org/"
  ++ fmt E pr_repo ++ " " ++ fmt E pr_branch.

(** The local branches of a [git branch] listing, as line 69 reads them. *)
Definition existing_branches (out : string) : list string :=
  map strip_marker (PyStr.splitlines (PyStr.strip out)).

Definition force_delete (branch : string) : string := "git branch -D " ++ branch.
Definition safe_delete (branch : string) : string := "git branch -d " ++ branch.

(** What the merged loop deletes: only with [-d], and only names that
    are not empty, not the current branch, not [main], not [master]. *)
Definition deletable (current_branch : option string) (b : string) : Prop :=
  b <> "" /\ Some b <> current_branch /\ b <> "main" /\ b <> "master".

(** [l1] is an initial segment of [l2]. *)
Definition is_prefix {A} (l1 l2 : list A) : Prop := exists rest, l2 = (l1 ++ rest)%list.

(* ================================================================== *)
(** ** Vocabulary of the further properties *)
(* ================================================================== *)

(** No character of [s] is whitespace. *)
Fixpoint no_space (s : string) : bool :=
  match s with
  | EmptyString => true
  | String c s' => negb (PyStr.is_space c) && no_space s'
  end.

(** A branch name as a listing shows it: not empty, without whitespace,
    and not starting with the marker character. *)
Definition branch_name (b : string) : bool :=
  match b with
  | EmptyString => false
  | String c _ => negb (Ascii.eqb c "*") && no_space b
  end.

(** The output of [git branch]: one line per branch, the current one
    after [* ], the others after two spaces. *)
Definition listing_line (entry : bool * string) : string :=
  (if fst entry then "* " else "  ") ++ snd entry.

Fixpoint listing (entries : list (bool * string)) : string :=
  match entries with
  | [] => ""
  | entry :: rest => listing_line entry ++ nl ++ listing rest
  end.

(** A line of [git branch -vv] for a branch that is not the current one:
    two spaces, the name, a space, then hash, tracking and subject. *)
Definition verbose_line (entry : string * string) : string :=
  "  " ++ fst entry ++ " " ++ snd entry.

(** A line that [splitlines] and [rstrip] leave alone. *)
Definition plain_line (x : string) : Prop :=
  x <> "" /\ PyStr.rstrip x = x /\ PyStr.splitlines x = [x]
  /\ forall rest, PyStr.splitlines (x ++ nl ++ rest) = x :: PyStr.splitlines rest.



(** A run stopped at its first failing command: either every command of
    the trace returned 0, or the last event is the one command that did
    not, and the run raised its [CalledProcessError]. *)
Definition fail_fast {A W} (x : result A * W * list event) : Prop :=
  match result_of x with
  | Ret _ => all_succeeded (trace_of x) = true
  | Raise e =>
      all_succeeded (trace_of x) = true
      \/ exists pre cmd rc out,
           trace_of x = (pre ++ [ERun cmd rc out])%list
           /\ rc <> 0%Z
           /\ all_succeeded pre = true
           /\ e = CalledProcessError rc cmd
  end.

Definition FailFast {E A} (m : M E A) : Prop := forall w, fail_fast (m w).

(** A computation that makes no HTTP request. *)
Definition NoHttp {E A} (m : M E A) : Prop :=
  forall w, filter is_http (trace_of (m w)) = [].



(** The branches of [stale_env] and of [prune_env], as listings. *)
Definition stale_branches : list (bool * string) :=
  [(true, "dev"); (false, "main"); (false, "PR/42/alice-feature-x")].
Definition merged_branches_example : list (bool * string) :=
  [(true, "dev"); (false, "main"); (false, "old"); (false, "master")].
Definition verbose_example : list (string * string) :=
  [("main", "0123abc [gone] msg"); ("topic", "1a2b3c4 [origin/topic] wip")].

(** On [dev] with local changes: [git checkout main] fails. *)
Definition conflict_env : Env :=
  fake_env
    [("git branch --show-current", (0%Z, "dev" ++ nl));
     ("git checkout main", (1%Z, ""))]
    (Ret alice_pr).

(** A merged pull request whose [merged_by] is a JSON [null]. *)
Definition null_merger_env : Env :=
  fake_env [] (Ret (JObj [("merged", JBool true); ("merged_by", JNull)])).

(** Force-delete the given branches one after the other, reporting
    each deletion, and stop at the first deletion that fails: what the
    gone phase does with the branches it selects, in the spec's words,
    run against the shell. *)
Fixpoint force_delete_each (E : Env) (names : list string) (w : world E)
  : result unit * world E * list event :=
  match names with
  | [] => (Ret tt, w, [])
  | b :: rest =>
      let '(rc, out, w1) := sh E (force_delete b) w in
      if Z.eqb rc 0 then
        let '(r, w2, t) := force_delete_each E rest w1 in
        (r, w2,
         ERun (force_delete b) rc out
         :: EPrint (ESC ++ "[92mDeleted stale branch: " ++ b ++ ESC ++ "[0m")
         :: t)
      else
        (Raise (CalledProcessError rc (force_delete b)), w1,
         [ERun (force_delete b) rc out])
  end.

(** A word the shell passes on as it is: letters, digits and the
    characters [/], [-], [_] and [.]; not empty. *)
Definition plain_char (c : ascii) : bool :=
  let n := nat_of_ascii c in
  (((48 <=? n) && (n <=? 57)) || ((65 <=? n) && (n <=? 90))
   || ((97 <=? n) && (n <=? 122))
   || (n =? 45) || (n =? 46) || (n =? 47) || (n =? 95))%nat.

Fixpoint plain_chars (s : string) : bool :=
  match s with
  | EmptyString => true
  | String c s' => plain_char c && plain_chars s'
  end.

Definition plain_word (s : string) : bool :=
  negb (String.eqb s "") && plain_chars s.

(** The fields the commands of the open path interpolate (lines 66, 76,
    77 through lines 53-57). *)
Definition interpolated_fields : list (list string) :=
  [["head"; "repo"; "full_name"];
   ["head"; "repo"; "owner"; "username"];
   ["head"; "ref"];
   ["base"; "ref"]].

(* ================================================================== *)
(** ** Facts about the string methods *)
(* ================================================================== *)

Module PyStrFacts.
Import PyStr.

Example strip_line : strip ("  main " ++ nl) = "main".
Proof. reflexivity. Qed.

Example lstrip_chars_is_a_set : lstrip_chars "* " "* * feature" = "feature".
Proof. reflexivity. Qed.

Example splitlines_boundaries :
  splitlines ("* main" ++ nl ++ nl ++ "  dev" ++ cr ++ nl ++ "x" ++ nl)
  = ["* main"; ""; "  dev"; "x"].
Proof. reflexivity. Qed.

Example split_listing_line :
  split "  old-feature  0123abc [gone] commit msg"
  = ["old-feature"; "0123abc"; "[gone]"; "commit"; "msg"].
Proof. reflexivity. Qed.

(** What git prints for a deleted upstream is not the literal marker. *)
Example contains_literal_only :
  contains "[gone]" "  dev 0123abc [origin/dev: gone] msg" = false.
Proof. reflexivity. Qed.

Lemma split_nonspace (c : ascii) (s : string) :
  is_space c = false -> exists t ts, split (String c s) = t :: ts.
Proof.
  intros Hc. simpl. rewrite Hc.
  destruct s as [|c' s']; [eauto|].
  destruct (is_space c'); [eauto|].
  destruct (split (String c' s')); eauto.
Qed.

Lemma prefix_head (a : ascii) (sub s : string) (c : ascii) :
  String.prefix (String a sub) (String c s) = true -> c = a.
Proof.
  simpl. destruct (ascii_dec a c); [congruence | discriminate].
Qed.

(** A line that contains [[gone]] has a first token: [line.split()[0]]
    cannot raise [IndexError]. *)
Lemma contains_gone_first_token (line : string) :
  contains "[gone]" line = true -> exists b, first_token line = Some b.
Proof.
  unfold first_token.
  induction line as [|c s IH]; [discriminate|].
  intros H.
  destruct (is_space c) eqn:Hc.
  - assert (Hp : String.prefix "[gone]" (String c s) = false).
    { destruct (String.prefix "[gone]" (String c s)) eqn:Hp; [|reflexivity].
      apply prefix_head in Hp. subst c. discriminate Hc. }
    unfold contains in H; fold contains in H. rewrite Hp in H.
    simpl. rewrite Hc. apply IH, H.
  - destruct (split_nonspace c s Hc) as (t & ts & Hs). rewrite Hs. eauto.
Qed.

Lemma length_append (a b : string) :
  String.length (a ++ b) = String.length a + String.length b.
Proof. induction a as [|c a IH]; simpl; [reflexivity | now rewrite IH]. Qed.

(** No string is a proper suffix of itself. *)
Lemma append_self_ne (a s : string) : a <> "" -> s <> a ++ s.
Proof.
  intros Ha Heq. apply (f_equal String.length) in Heq.
  rewrite length_append in Heq.
  destruct a as [|c a]; [contradiction|]. simpl in Heq. lia.
Qed.

Lemma append_inv_head (p a b : string) : p ++ a = p ++ b -> a = b.
Proof.
  induction p as [|c p IH]; simpl; intros H; [exact H|].
  injection H as H. auto.
Qed.

Lemma safe_delete_inj (a b : string) : safe_delete a = safe_delete b -> a = b.
Proof. apply append_inv_head. Qed.

(** The current-branch line: its first token is the marker. *)
Lemma first_token_marker (rest : string) :
  first_token ("* " ++ rest) = Some "*".
Proof. reflexivity. Qed.

End PyStrFacts.

(* ================================================================== *)
(** ** Reading back what git prints *)
(* ================================================================== *)

Module ListingFacts.
Import PyStr.

Lemma space_is_not_star (c : ascii) :
  is_space c = false -> mem_char c "* " = Ascii.eqb c "*".
Proof.
  intros Hc. simpl. destruct (Ascii.eqb_spec c " ") as [->|_].
  - discriminate Hc.
  - now rewrite !orb_false_r.
Qed.

Lemma append_nonempty (a b : string) : b <> "" -> a ++ b <> "".
Proof. destruct a; [auto | discriminate]. Qed.

(** [rstrip] of a concatenation. *)
Lemma rstrip_app (a s : string) :
  rstrip (a ++ s)
  = match rstrip s with
    | EmptyString => rstrip a
    | r => a ++ r
    end.
Proof.
  induction a as [|c a IH]; simpl.
  - destruct (rstrip s); reflexivity.
  - rewrite IH. destruct (rstrip s) as [|d r] eqn:Hr; [reflexivity|].
    destruct a; reflexivity.
Qed.

Lemma rstrip_no_space (b : string) : no_space b = true -> rstrip b = b.
Proof.
  induction b as [|c b IH]; [reflexivity|]. simpl.
  intros H. apply andb_prop in H. destruct H as [Hc Hb].
  rewrite (IH Hb). apply negb_true_iff in Hc. rewrite Hc.
  destruct b; reflexivity.
Qed.

Lemma rstrip_idempotent (s : string) : rstrip (rstrip s) = rstrip s.
Proof.
  induction s as [|c s IH]; [reflexivity|]. simpl.
  destruct (rstrip s) as [|d r] eqn:Hr.
  - destruct (is_space c) eqn:Hc; simpl; [reflexivity|]. now rewrite Hc.
  - simpl in IH |- *. rewrite IH. reflexivity.
Qed.

(** [lstrip] leaves nothing or a string that starts with a character
    that is not whitespace. *)
Lemma lstrip_head (s : string) :
  lstrip s = "" \/ exists c r, lstrip s = String c r /\ is_space c = false.
Proof.
  induction s as [|c s IH]; [now left|]. simpl.
  destruct (is_space c) eqn:Hc; [exact IH|]. right. eauto.
Qed.

Lemma lstrip_fixed (c : ascii) (r : string) :
  is_space c = false -> lstrip (String c r) = String c r.
Proof. intros Hc. simpl. now rewrite Hc. Qed.

(** [rstrip] keeps a first character that is not whitespace. *)
Lemma rstrip_head (c : ascii) (r : string) :
  is_space c = false -> exists r', rstrip (String c r) = String c r'.
Proof.
  intros Hc. simpl. rewrite Hc. destruct (rstrip r); eauto.
Qed.

(** What [strip] returns has no whitespace at either end. *)
Lemma strip_is_stripped (s : string) :
  lstrip (strip s) = strip s /\ rstrip (strip s) = strip s.
Proof.
  unfold strip. split; [|apply rstrip_idempotent].
  destruct (lstrip_head s) as [->|(c & r & -> & Hc)]; [reflexivity|].
  destruct (rstrip_head c r Hc) as [r' ->]. now apply lstrip_fixed.
Qed.

(** [strip] returns the empty string exactly on strings of whitespace. *)
Lemma rstrip_empty (s : string) :
  rstrip s = "" -> forall c r, s = String c r -> is_space c = true.
Proof.
  intros H c r ->. simpl in H.
  destruct (rstrip r); [|discriminate].
  destruct (is_space c); [reflexivity | discriminate].
Qed.

Lemma strip_empty_iff (s : string) : strip s = "" <-> lstrip s = "".
Proof.
  unfold strip. split.
  - intros H. destruct (lstrip_head s) as [->|(c & r & Heq & Hc)];
      [reflexivity|].
    rewrite Heq in H. pose proof (rstrip_empty _ H c r eq_refl). congruence.
  - intros ->. reflexivity.
Qed.

Lemma no_space_char (c : ascii) :
  is_space c = false -> is_cr c = false /\ is_linebreak c = false.
Proof.
  destruct c as [[] [] [] [] [] [] [] []]; vm_compute; intros H;
    first [discriminate H | split; reflexivity].
Qed.

(** A line that ends at a line feed. *)
Lemma splitlines_name (b rest : string) :
  no_space b = true -> splitlines (b ++ nl ++ rest) = b :: splitlines rest.
Proof.
  induction b as [|c b IH]; intros H; [reflexivity|].
  simpl in H. apply andb_prop in H. destruct H as [Hc Hb].
  apply negb_true_iff in Hc. destruct (no_space_char c Hc) as [Hcr Hlb].
  change (String c b ++ nl ++ rest) with (String c (b ++ nl ++ rest)).
  cbn [splitlines]. rewrite Hcr, Hlb, (IH Hb). reflexivity.
Qed.

(** The last line, without a line feed. *)
Lemma splitlines_last (b : string) :
  no_space b = true -> b <> "" -> splitlines b = [b].
Proof.
  induction b as [|c b IH]; intros H Hne; [contradiction|].
  simpl in H. apply andb_prop in H. destruct H as [Hc Hb].
  apply negb_true_iff in Hc. destruct (no_space_char c Hc) as [Hcr Hlb].
  cbn [splitlines]. rewrite Hcr, Hlb.
  destruct b as [|d b]; [reflexivity|].
  rewrite (IH Hb) by discriminate. reflexivity.
Qed.

Lemma branch_name_inv (b : string) :
  branch_name b = true ->
  no_space b = true
  /\ exists c r, b = String c r /\ is_space c = false /\ Ascii.eqb c "*" = false.
Proof.
  destruct b as [|c r]; [discriminate|]. unfold branch_name.
  intros H. apply andb_prop in H. destruct H as [Hstar Hns].
  split; [exact Hns|]. exists c, r. split; [reflexivity|].
  simpl in Hns. apply andb_prop in Hns. destruct Hns as [Hc _].
  split; [now apply negb_true_iff | now apply negb_true_iff].
Qed.

Lemma plain_name (b : string) : branch_name b = true -> plain_line b.
Proof.
  intros H. destruct (branch_name_inv b H) as (Hns & c & r & -> & _ & _).
  repeat split.
  - discriminate.
  - now apply rstrip_no_space.
  - apply splitlines_last; [exact Hns | discriminate].
  - intros rest. now apply splitlines_name.
Qed.

Lemma splitlines_cons (c : ascii) (s : string) :
  is_cr c = false -> is_linebreak c = false ->
  splitlines (String c s)
  = match splitlines s with
    | [] => [String c ""]
    | l :: ls => String c l :: ls
    end.
Proof. intros Hcr Hlb. cbn [splitlines]. now rewrite Hcr, Hlb. Qed.

Lemma plain_prefixed (c : ascii) (x : string) :
  is_cr c = false -> is_linebreak c = false ->
  plain_line x -> plain_line (String c (String " " x)).
Proof.
  intros Hcr Hlb (Hne & Hr & Hl & Hs). repeat split.
  - discriminate.
  - change (String c (String " " x)) with (String c (String " " "") ++ x).
    rewrite rstrip_app, Hr. destruct x; [contradiction | reflexivity].
  - rewrite (splitlines_cons c) by assumption.
    rewrite (splitlines_cons " ") by reflexivity. rewrite Hl. reflexivity.
  - intros rest.
    change (String c (String " " x) ++ nl ++ rest)
      with (String c (String " " (x ++ nl ++ rest))).
    rewrite (splitlines_cons c) by assumption.
    rewrite (splitlines_cons " ") by reflexivity. rewrite Hs. reflexivity.
Qed.

Lemma plain_listing_line (entry : bool * string) :
  branch_name (snd entry) = true -> plain_line (listing_line entry).
Proof.
  intros H. pose proof (plain_name _ H) as Hp.
  destruct entry as [[] b]; unfold listing_line; cbn [fst snd] in *.
  - apply (plain_prefixed "*" b); [reflexivity | reflexivity | exact Hp].
  - apply (plain_prefixed " " b); [reflexivity | reflexivity | exact Hp].
Qed.

(** The lines of a listing whose first line is [x], after [rstrip]. *)
Lemma splitlines_rstrip_listing (entries : list (bool * string)) :
  forallb (fun e => branch_name (snd e)) entries = true ->
  forall x, plain_line x ->
    rstrip (x ++ nl ++ listing entries) <> ""
    /\ splitlines (rstrip (x ++ nl ++ listing entries))
       = x :: map listing_line entries.
Proof.
  induction entries as [|e rest IH]; intros Hall x (Hne & Hr & Hl & Hs).
  - simpl. rewrite rstrip_app. simpl. rewrite Hr. auto.
  - simpl in Hall. apply andb_prop in Hall. destruct Hall as [He Hrest].
    destruct (IH Hrest _ (plain_listing_line e He)) as [Hne' Hlines].
    cbn [listing map].
    destruct (rstrip (listing_line e ++ nl ++ listing rest)) as [|d r] eqn:Hrs;
      [contradiction|].
    assert (Hrr : rstrip (x ++ nl ++ listing_line e ++ nl ++ listing rest)
                  = x ++ nl ++ String d r).
    { rewrite (rstrip_app x).
      change (nl ++ listing_line e ++ nl ++ listing rest)
        with (nl ++ (listing_line e ++ nl ++ listing rest)).
      rewrite (rstrip_app nl), Hrs. reflexivity. }
    rewrite Hrr. split; [now apply append_nonempty|].
    rewrite Hs, Hlines. reflexivity.
Qed.

(** The marker is stripped from a listing line, and a bare name is left
    alone. *)
Lemma strip_marker_name (b : string) :
  branch_name b = true -> strip_marker b = b.
Proof.
  intros H. destruct (branch_name_inv b H) as (Hns & c & r & -> & Hc & Hstar).
  unfold strip_marker, strip. rewrite (lstrip_fixed c r Hc).
  rewrite (rstrip_no_space _ Hns). cbn [lstrip_chars].
  rewrite (space_is_not_star c Hc), Hstar. reflexivity.
Qed.

Lemma strip_marker_listing_line (entry : bool * string) :
  branch_name (snd entry) = true ->
  strip_marker (listing_line entry) = snd entry.
Proof.
  intros H. pose proof (strip_marker_name _ H) as Hb.
  destruct (branch_name_inv _ H) as (Hns & c & r & Heq & Hc & Hstar).
  destruct entry as [cur b]. simpl in *. subst b.
  unfold strip_marker, strip in *. unfold listing_line. simpl fst. simpl snd.
  rewrite (lstrip_fixed c r Hc) in Hb.
  destruct cur.
  - change ("* " ++ String c r) with (String "*" (String " " (String c r))).
    rewrite lstrip_fixed by reflexivity.
    change (String "*" (String " " (String c r))) with ("* " ++ String c r).
    rewrite rstrip_app.
    destruct (rstrip (String c r)) as [|d r'] eqn:Hrs.
    + pose proof (rstrip_empty _ Hrs c r eq_refl). congruence.
    + exact Hb.
  - change ("  " ++ String c r) with (String " " (String " " (String c r))).
    cbn [lstrip]. change (is_space " ") with true. cbv iota.
    rewrite Hc. exact Hb.
Qed.

Lemma map_strip_marker_listing (entries : list (bool * string)) :
  forallb (fun e => branch_name (snd e)) entries = true ->
  map strip_marker (map listing_line entries) = map snd entries.
Proof.
  induction entries as [|e rest IH]; [reflexivity|]. simpl.
  intros H. apply andb_prop in H. destruct H as [He Hrest].
  rewrite (strip_marker_listing_line e He), (IH Hrest). reflexivity.
Qed.

(** Membership as line 70 tests it. *)
Lemma mem_In (x : string) (l : list string) : mem x l = true <-> In x l.
Proof.
  induction l as [|y l IH]; simpl; [split; [discriminate | contradiction]|].
  rewrite orb_true_iff, IH, String.eqb_eq. split; intros [H|H]; auto.
Qed.

(** [split] on a name followed by whitespace. *)
Lemma split_name (b : string) (c : ascii) (rest : string) :
  no_space b = true -> b <> "" -> is_space c = true ->
  split (b ++ String c rest) = b :: split rest.
Proof.
  induction b as [|d b IH]; intros H Hne Hc; [contradiction|].
  simpl in H. apply andb_prop in H. destruct H as [Hd Hb].
  apply negb_true_iff in Hd.
  change (String d b ++ String c rest) with (String d (b ++ String c rest)).
  destruct b as [|d' b'].
  - cbn [append split]. rewrite Hd, Hc. reflexivity.
  - assert (Hd' : is_space d' = false).
    { simpl in Hb. apply andb_prop in Hb. destruct Hb as [Hb _].
      now apply negb_true_iff. }
    specialize (IH Hb ltac:(discriminate) Hc).
    change (String d' b' ++ String c rest)
      with (String d' (b' ++ String c rest)) in *.
    cbn [split] in IH |- *. rewrite Hd, Hd'. rewrite Hd' in IH.
    rewrite IH. reflexivity.
Qed.

Lemma append_assoc (a b c : string) : (a ++ b) ++ c = a ++ b ++ c.
Proof. induction a as [|x a IH]; simpl; [reflexivity | now rewrite IH]. Qed.

Lemma prefix_app (p s : string) : String.prefix p (p ++ s) = true.
Proof.
  induction p as [|c p IH]; simpl; [destruct s; reflexivity|].
  destruct (ascii_dec c c); [exact IH | contradiction].
Qed.

(** The local branch of pull request [n] lies under [PR/n/]. *)
Lemma local_branch_prefix (n author branch : string) :
  String.prefix ("PR/" ++ n ++ "/") (local_branch_name n author branch) = true.
Proof.
  unfold local_branch_name.
  replace ("PR/" ++ n ++ "/" ++ author ++ "-" ++ branch)
    with (("PR/" ++ n ++ "/") ++ author ++ "-" ++ branch).
  - apply prefix_app.
  - rewrite append_assoc. f_equal. rewrite append_assoc. reflexivity.
Qed.

(** [lstrip(chars)] leaves nothing or a string that starts with a
    character outside [chars]. *)
Lemma lstrip_chars_head (chars s : string) :
  lstrip_chars chars s = ""
  \/ exists c r, lstrip_chars chars s = String c r /\ mem_char c chars = false.
Proof.
  induction s as [|c s IH]; [now left|]. simpl.
  destruct (mem_char c chars) eqn:Hc; [exact IH|]. right. eauto.
Qed.

Lemma strip_marker_head (line : string) :
  strip_marker line = ""
  \/ exists c r, strip_marker line = String c r /\ c <> "*"%char /\ c <> " "%char.
Proof.
  unfold strip_marker.
  destruct (lstrip_chars_head "* " (strip line)) as [->|(c & r & -> & Hc)];
    [now left|].
  right. exists c, r. split; [reflexivity|]. simpl in Hc.
  apply orb_false_elim in Hc. destruct Hc as [H1 Hc].
  apply orb_false_elim in Hc. destruct Hc as [H2 _].
  split; [now apply Ascii.eqb_neq | now apply Ascii.eqb_neq].
Qed.


(** The names of a listing, as lines 68-69 (and 85, 88) read them. *)
Lemma existing_branches_of_listing (entries : list (bool * string)) :
  forallb (fun e => branch_name (snd e)) entries = true ->
  existing_branches (listing entries) = map snd entries.
Proof.
  destruct entries as [|[cur b] rest]; [reflexivity|].
  intros Hall. pose proof Hall as Hall'. cbn [forallb snd] in Hall'.
  apply andb_prop in Hall'. destruct Hall' as [Hb Hrest].
  destruct (branch_name_inv b Hb) as (Hns & c & r & Hbeq & Hc & Hstar).
  unfold existing_branches, strip. cbn [listing map snd].
  destruct cur.
  - assert (Hl : lstrip (listing_line (true, b) ++ nl ++ listing rest)
                 = listing_line (true, b) ++ nl ++ listing rest)
      by reflexivity.
    rewrite Hl.
    destruct (splitlines_rstrip_listing rest Hrest _
                (plain_listing_line (true, b) Hb)) as [_ ->].
    cbn [map]. rewrite (strip_marker_listing_line (true, b) Hb).
    rewrite (map_strip_marker_listing rest Hrest). reflexivity.
  - assert (Hl : lstrip (listing_line (false, b) ++ nl ++ listing rest)
                 = b ++ nl ++ listing rest).
    { subst b. unfold listing_line. cbn [fst snd].
      change (lstrip (String c (r ++ nl ++ listing rest))
              = String c (r ++ nl ++ listing rest)).
      now apply lstrip_fixed. }
    rewrite Hl.
    destruct (splitlines_rstrip_listing rest Hrest _ (plain_name b Hb))
      as [_ ->].
    cbn [map]. rewrite (strip_marker_name b Hb).
    rewrite (map_strip_marker_listing rest Hrest). reflexivity.
Qed.

(** The first token of a verbose line is the branch name. *)
Lemma first_token_verbose_line (entry : string * string) :
  branch_name (fst entry) = true ->
  first_token (verbose_line entry) = Some (fst entry).
Proof.
  intros H. destruct (branch_name_inv _ H) as (Hns & c & r & Heq & Hc & _).
  destruct entry as [b rest]. cbn [fst snd] in *.
  unfold first_token, verbose_line. cbn [fst snd].
  assert (Hsplit : split ("  " ++ b ++ " " ++ rest) = b :: split rest).
  { change (split ("  " ++ b ++ " " ++ rest))
      with (split (b ++ String " " rest)).
    apply split_name; [exact Hns | subst b; discriminate | reflexivity]. }
  rewrite Hsplit. reflexivity.
Qed.

(** X2.  Lines 68-70 read back what [git branch] prints: for branch
    names without whitespace that do not start with [*], the names read
    from the listing are the branches listed, whichever is the current
    one, and the membership test of line 70 holds exactly for a listed
    branch. *)
Theorem listing_round_trip (entries : list (bool * string)) (lb : string) :
  forallb (fun e => branch_name (snd e)) entries = true ->
  existing_branches (listing entries) = map snd entries
  /\ (mem lb (existing_branches (listing entries)) = true
      <-> In lb (map snd entries)).
Proof.
  intros H. rewrite (existing_branches_of_listing entries H).
  split; [reflexivity | apply mem_In].
Qed.

(** X4.  Lines 97-98 on what [git branch -vv] prints for branches other
    than the current one: the gone branches are the names of the lines
    that contain [[gone]], in listing order. *)
Theorem gone_names_of_verbose_listing (entries : list (string * string)) :
  forallb (fun e => branch_name (fst e)) entries = true ->
  gone_branch_names (map verbose_line entries)
  = map fst (filter (fun e => contains "[gone]" (verbose_line e)) entries).
Proof.
  induction entries as [|e rest IH]; [reflexivity|].
  intros H. cbn [forallb] in H. apply andb_prop in H. destruct H as [He Hrest].
  cbn [map gone_branch_names filter].
  rewrite (first_token_verbose_line e He), (IH Hrest).
  destruct (contains "[gone]" (verbose_line e)); reflexivity.
Qed.


End ListingFacts.

(* ================================================================== *)
(** ** The words of a command *)
(* ================================================================== *)

Module WordFacts.
Import PyStr.

Lemma plain_char_not_space (c : ascii) :
  plain_char c = true -> is_space c = false.
Proof.
  destruct c as [[] [] [] [] [] [] [] []]; vm_compute; intros H;
    first [discriminate H | reflexivity].
Qed.

Lemma plain_chars_no_space (s : string) :
  plain_chars s = true -> no_space s = true.
Proof.
  induction s as [|c s IH]; [reflexivity|]. simpl.
  intros H. apply andb_prop in H. destruct H as [Hc Hs].
  rewrite (plain_char_not_space c Hc), (IH Hs). reflexivity.
Qed.

Lemma plain_chars_app (a b : string) :
  plain_chars (a ++ b) = plain_chars a && plain_chars b.
Proof.
  induction a as [|c a IH]; [reflexivity|]. simpl.
  rewrite IH, andb_assoc. reflexivity.
Qed.

Lemma plain_word_inv (s : string) :
  plain_word s = true ->
  s <> "" /\ plain_chars s = true /\ no_space s = true.
Proof.
  unfold plain_word. intros H. apply andb_prop in H. destruct H as [Hne Hs].
  apply negb_true_iff, String.eqb_neq in Hne.
  auto using plain_chars_no_space.
Qed.

(** The local branch of plain parts is a plain word. *)
Lemma plain_local_branch (n author branch : string) :
  plain_word n = true -> plain_word author = true ->
  plain_word branch = true ->
  plain_word (local_branch_name n author branch) = true.
Proof.
  intros Hn Ha Hb.
  destruct (plain_word_inv _ Hn) as (_ & Hn' & _).
  destruct (plain_word_inv _ Ha) as (_ & Ha' & _).
  destruct (plain_word_inv _ Hb) as (_ & Hb' & _).
  unfold plain_word, local_branch_name.
  rewrite !plain_chars_app, Hn', Ha', Hb'. reflexivity.
Qed.

Lemma split_cons (c c' : ascii) (s : string) :
  is_space c = false -> is_space c' = false ->
  split (String c (String c' s))
  = match split (String c' s) with
    | [] => [String c EmptyString]
    | t :: ts => String c t :: ts
    end.
Proof. intros Hc Hc'. cbn [split]. rewrite Hc, Hc'. reflexivity. Qed.

(** [split] on a single word. *)
Lemma split_word (b : string) :
  no_space b = true -> b <> "" -> split b = [b].
Proof.
  induction b as [|c b IH]; intros H Hne; [contradiction|].
  simpl in H. apply andb_prop in H. destruct H as [Hc Hb].
  apply negb_true_iff in Hc.
  destruct b as [|c' b'].
  - cbn [split]. rewrite Hc. reflexivity.
  - assert (Hc' : is_space c' = false).
    { simpl in Hb. apply andb_prop in Hb. destruct Hb as [Hb _].
      now apply negb_true_iff. }
    rewrite (split_cons c c' b' Hc Hc').
    rewrite (IH Hb ltac:(discriminate)). reflexivity.
Qed.

Lemma no_space_app (a b : string) :
  no_space (a ++ b) = no_space a && no_space b.
Proof.
  induction a as [|c a IH]; [reflexivity|]. simpl.
  rewrite IH, andb_assoc. reflexivity.
Qed.

(** The words of the commands the script builds (lines 66, 72, 76, 77
    and 90). *)
Lemma words_checkout (x : string) :
  no_space x = true -> x <> "" ->
  split ("git checkout " ++ x) = ["git"; "checkout"; x].
Proof.
  intros Hx Hne.
  change ("git checkout " ++ x)
    with ("git" ++ String " " ("checkout" ++ String " " x)).
  rewrite !ListingFacts.split_name by (reflexivity || discriminate).
  rewrite (split_word x Hx Hne). reflexivity.
Qed.

Lemma words_force_delete (x : string) :
  no_space x = true -> x <> "" ->
  split (force_delete x) = ["git"; "branch"; "-D"; x].
Proof.
  intros Hx Hne. unfold force_delete.
  change ("git branch -D " ++ x)
    with ("git" ++ String " " ("branch" ++ String " " ("-D" ++ String " " x))).
  rewrite !ListingFacts.split_name by (reflexivity || discriminate).
  rewrite (split_word x Hx Hne). reflexivity.
Qed.

Lemma words_safe_delete (x : string) :
  no_space x = true -> x <> "" ->
  split (safe_delete x) = ["git"; "branch"; "-d"; x].
Proof.
  intros Hx Hne. unfold safe_delete.
  change ("git branch -d " ++ x)
    with ("git" ++ String " " ("branch" ++ String " " ("-d" ++ String " " x))).
  rewrite !ListingFacts.split_name by (reflexivity || discriminate).
  rewrite (split_word x Hx Hne). reflexivity.
Qed.

Lemma words_checkout_b (x y : string) :
  no_space x = true -> x <> "" -> no_space y = true -> y <> "" ->
  split ("git checkout -b " ++ x ++ " " ++ y)
  = ["git"; "checkout"; "-b"; x; y].
Proof.
  intros Hx Hnx Hy Hny.
  change ("git checkout -b " ++ x ++ " " ++ y)
    with ("git" ++ String " " ("checkout" ++ String " "
            ("-b" ++ String " " (x ++ String " " y)))).
  rewrite !ListingFacts.split_name by (reflexivity || discriminate || assumption).
  rewrite (split_word y Hy Hny). reflexivity.
Qed.

Lemma words_pull (x y : string) :
  no_space x = true -> no_space y = true -> y <> "" ->
  split ("git pull --no-rebase --ff --no-edit --commit https://projects.blender.org/"
         ++ x ++ " " ++ y)
  = ["git"; "pull"; "--no-rebase"; "--ff"; "--no-edit"; "--commit";
     "https://projects.blender.org/" ++ x; y].
Proof.
  intros Hx Hy Hny.
  change ("git pull --no-rebase --ff --no-edit --commit https://projects.blender.org/"
          ++ x ++ " " ++ y)
    with ("git" ++ String " " ("pull" ++ String " " ("--no-rebase" ++ String " "
            ("--ff" ++ String " " ("--no-edit" ++ String " " ("--commit" ++ String " "
               (("https://projects.blender.org/" ++ x) ++ String " " y))))))).
  rewrite !ListingFacts.split_name
    by (reflexivity || discriminate || (rewrite no_space_app, Hx; reflexivity)).
  rewrite (split_word y Hy Hny). reflexivity.
Qed.

End WordFacts.

(* ================================================================== *)
(** ** Facts about the monad and the process runner *)
(* ================================================================== *)

Section RunnerFacts.

Variable E : Env.

Lemma commands_app (t1 t2 : list event) :
  commands (t1 ++ t2) = (commands t1 ++ commands t2)%list.
Proof.
  induction t1 as [|e t1 IH]; [reflexivity|].
  destruct e; simpl; rewrite IH; reflexivity.
Qed.

Lemma all_succeeded_app (t1 t2 : list event) :
  all_succeeded (t1 ++ t2) = all_succeeded t1 && all_succeeded t2.
Proof.
  induction t1 as [|e t1 IH]; [reflexivity|].
  destruct e; simpl; rewrite IH; auto using andb_assoc.
Qed.

Lemma bind_run {A B} (m : M E A) (k : A -> M E B) w a w1 t1 r w2 t2 :
  m w = (Ret a, w1, t1) -> k a w1 = (r, w2, t2) ->
  bind m k w = (r, w2, (t1 ++ t2)%list).
Proof. intros Hm Hk. unfold bind. rewrite Hm, Hk. reflexivity. Qed.

Lemma bind_raise {A B} (m : M E A) (k : A -> M E B) w e w1 t1 :
  m w = (Raise e, w1, t1) -> bind m k w = (Raise e, w1, t1).
Proof. intros Hm. unfold bind. rewrite Hm. reflexivity. Qed.

Lemma bind_lift_ret {A B} (a : A) (k : A -> M E B) w :
  bind (lift (Ret a)) k w = k a w.
Proof. unfold bind, lift. destruct (k a w) as [[r w'] t]. reflexivity. Qed.

Lemma bind_lift_raise {A B} (e : exn) (k : A -> M E B) w :
  bind (lift (Raise e)) k w = (Raise e, w, []).
Proof. reflexivity. Qed.

Lemma bind_print {B} (line : string) (k : unit -> M E B) w r w' t :
  k tt w = (r, w', t) ->
  bind (print line) k w = (r, w', EPrint line :: t).
Proof. intros Hk. unfold bind, print. rewrite Hk. reflexivity. Qed.

Lemma first_run_none (cmd : string) (t : list event) :
  ~ In cmd (commands t) -> first_run cmd t = None.
Proof.
  induction t as [|e t IH]; [reflexivity|].
  destruct e as [l| |u|c rc out]; simpl; auto.
  intros Hn. destruct (String.eqb_spec c cmd) as [->|_].
  - exfalso. apply Hn. now left.
  - apply IH. intros Hin. apply Hn. now right.
Qed.

Lemma first_run_app_none (cmd : string) (t1 t2 : list event) :
  ~ In cmd (commands t1) -> first_run cmd (t1 ++ t2) = first_run cmd t2.
Proof.
  induction t1 as [|e t1 IH]; [reflexivity|].
  destruct e as [l| |u|c rc out]; simpl; auto.
  intros Hn. destruct (String.eqb_spec c cmd) as [->|_].
  - exfalso. apply Hn. now left.
  - apply IH. intros Hin. apply Hn. now right.
Qed.

Lemma first_run_in (cmd : string) (t : list event) rc out post :
  first_run cmd t = Some (rc, out, post) ->
  exists pre, t = (pre ++ ERun cmd rc out :: post)%list
              /\ ~ In cmd (commands pre).
Proof.
  revert rc out post. induction t as [|e t IH]; [discriminate|].
  intros rc out post H.
  destruct e as [l| |u|c rc' out']; simpl in H.
  - destruct (IH _ _ _ H) as (pre & -> & Hn). exists (EPrint l :: pre). auto.
  - destruct (IH _ _ _ H) as (pre & -> & Hn). exists (EHelp :: pre). auto.
  - destruct (IH _ _ _ H) as (pre & -> & Hn). exists (EHttp u :: pre). auto.
  - destruct (String.eqb_spec c cmd) as [->|Hc].
    + injection H as -> -> ->. exists []. simpl. auto.
    + destruct (IH _ _ _ H) as (pre & -> & Hn).
      exists (ERun c rc' out' :: pre). split; [reflexivity|].
      simpl. intros [Heq|Hin]; auto.
Qed.

(** [run_cmd] with [check=True], by the answer of the shell. *)
Lemma run_cmd_ok cmd capture w out w' :
  sh E cmd w = (0%Z, out, w') ->
  run_cmd E cmd true capture w
  = (Ret (if capture then Some (PyStr.strip out) else None), w', [ERun cmd 0 out]).
Proof. intros H. unfold run_cmd. rewrite H. reflexivity. Qed.

Lemma run_cmd_fail cmd capture w rc out w' :
  sh E cmd w = (rc, out, w') -> rc <> 0%Z ->
  run_cmd E cmd true capture w
  = (Raise (CalledProcessError rc cmd), w', [ERun cmd rc out]).
Proof.
  intros H Hrc. unfold run_cmd. rewrite H.
  destruct (Z.eqb_spec rc 0); [contradiction | reflexivity].
Qed.

End RunnerFacts.

#[local] Arguments String.append : simpl never.
#[local] Arguments Py.eq_opt : simpl never.

(** The next [run_cmd] of a run given as a hypothesis: the shell's
    answer, then the two cases of its return code. *)
Ltac run_step_in H :=
  match type of H with
  | context [run_cmd ?E ?c true ?cap ?w] =>
      let rc := fresh "rc" in
      let out := fresh "out" in
      let w' := fresh "w" in
      let Hsh := fresh "Hsh" in
      let Hrc := fresh "Hrc" in
      destruct (sh E c w) as [[rc out] w'] eqn:Hsh;
      destruct (Z.eq_dec rc 0) as [Hrc|Hrc];
      [ subst rc; rewrite (run_cmd_ok E c cap w out w' Hsh) in H
      | rewrite (run_cmd_fail E c cap w rc out w' Hsh Hrc) in H ];
      simpl in H
  end.

(** The pure statements of [checkout_pr] before its first command: each
    lookup is replaced with its known value. *)
Ltac straight_line :=
  cbv beta; cbn [Py.get];
  repeat first
    [ rewrite bind_lift_ret
    | match goal with
      | H : Py.getitem _ _ = _ |- _ => rewrite H
      | H : Py.truthy _ = _ |- _ => rewrite H
      | H : Py.eq_str _ _ = _ |- _ => rewrite H
      end ];
  try reflexivity.

(** A run that stopped: name its result, world and trace. *)
Ltac stopped H := injection H as <- <- <-.

(* ================================================================== *)
(** ** Pruning *)
(* ================================================================== *)

Section PruneFacts.

Variable E : Env.

Lemma prune_merged_loop_commands (cur : option string) (lines : list string) :
  forall (w : world E) r w' t,
  prune_merged_loop E cur lines w = (r, w', t) ->
  Forall (fun c => exists line, In line lines
                    /\ c = safe_delete (strip_marker line)
                    /\ deletable cur (strip_marker line))
         (commands t).
Proof.
  induction lines as [|line rest IH]; intros w r w' t Hrun.
  - injection Hrun as <- <- <-. constructor.
  - cbn [prune_merged_loop] in Hrun.
    assert (Hrest : forall w1 r1 w2 t1,
               prune_merged_loop E cur rest w1 = (r1, w2, t1) ->
               Forall (fun c => exists l, In l (line :: rest)
                         /\ c = safe_delete (strip_marker l)
                         /\ deletable cur (strip_marker l)) (commands t1)).
    { intros w1 r1 w2 t1 H1. eapply Forall_impl; [|eapply IH, H1].
      intros c (l & Hl & Hc). exists l. split; [now right | exact Hc]. }
    destruct (negb (strip_marker line =? "")
              && negb (Py.str_eq_opt (strip_marker line) cur)
              && negb (strip_marker line =? "main")
              && negb (strip_marker line =? "master"))%bool eqn:Hguard.
    + assert (Hd : deletable cur (strip_marker line)).
      { repeat (apply andb_prop in Hguard; destruct Hguard as [Hguard ?]).
        repeat match goal with
               | H : negb _ = true |- _ => apply negb_true_iff in H
               end.
        unfold deletable. repeat split.
        - now apply String.eqb_neq.
        - intros <-. simpl in *. rewrite String.eqb_refl in *. discriminate.
        - now apply String.eqb_neq.
        - now apply String.eqb_neq. }
      unfold bind, run_cmd, print in Hrun.
      destruct (sh E ("git branch -d " ++ strip_marker line) w)
        as [[rc out] w0] eqn:Hsh.
      simpl in Hrun. destruct (Z.eqb_spec rc 0) as [Hrc|Hrc]; simpl in Hrun.
      * destruct (prune_merged_loop E cur rest w0) as [[r1 w1] t1] eqn:Hloop.
        injection Hrun as <- <- <-. simpl. constructor.
        -- exists line. split; [now left | split; [reflexivity | exact Hd]].
        -- eapply Hrest, Hloop.
      * injection Hrun as <- <- <-. simpl. constructor; [|constructor].
        exists line. split; [now left | split; [reflexivity | exact Hd]].
    + unfold bind, ret in Hrun.
      destruct (prune_merged_loop E cur rest w) as [[r1 w1] t1] eqn:Hloop.
      injection Hrun as <- <- <-. simpl. eapply Hrest, Hloop.
Qed.

(** The commands of the gone loop are force-deletions of the names the
    spec describes: always an initial segment of them, and all of them
    when no deletion fails. *)
Lemma prune_gone_loop_commands (lines : list string) :
  forall (w : world E) r w' t,
  prune_gone_loop E lines w = (r, w', t) ->
  is_prefix (commands t) (map force_delete (gone_branch_names lines))
  /\ (all_succeeded t = true ->
      commands t = map force_delete (gone_branch_names lines) /\ r = Ret tt).
Proof.
  induction lines as [|line rest IH]; intros w r w' t Hrun.
  - injection Hrun as <- <- <-. split; [exists []; reflexivity | auto].
  - cbn [prune_gone_loop gone_branch_names] in *.
    destruct (PyStr.contains "[gone]" line) eqn:Hg.
    + destruct (PyStrFacts.contains_gone_first_token line Hg) as [b Hb].
      rewrite Hb. unfold first_token in Hb.
      destruct (PyStr.split line) as [|b' ts]; [discriminate|].
      injection Hb as Hb. subst b'.
      unfold bind, run_cmd, print in Hrun.
      destruct (sh E ("git branch -D " ++ b) w) as [[rc out] w0] eqn:Hsh.
      simpl in Hrun. destruct (Z.eqb_spec rc 0) as [Hrc|Hrc]; simpl in Hrun.
      * destruct (prune_gone_loop E rest w0) as [[r1 w1] t1] eqn:Hrest.
        injection Hrun as <- <- <-.
        destruct (IH _ _ _ _ Hrest) as [[tl Htl] Hall]. split.
        -- exists tl. simpl. rewrite Htl. reflexivity.
        -- simpl. rewrite Hrc. simpl. intros Hs.
           destruct (Hall Hs) as [-> ->]. auto.
      * injection Hrun as <- <- <-. simpl. split.
        -- exists (map force_delete (gone_branch_names rest)). reflexivity.
        -- intros Hs. apply andb_prop in Hs. destruct Hs as [Hs _].
           apply Z.eqb_eq in Hs. contradiction.
    + unfold bind, ret in Hrun.
      destruct (prune_gone_loop E rest w) as [[r1 w1] t1] eqn:Hrest.
      injection Hrun as <- <- <-. simpl. eauto.
Qed.

Lemma merged_loop_not_in (cmd : string) cur lines (w : world E) r w' t :
  (forall b, cmd <> safe_delete b) ->
  prune_merged_loop E cur lines w = (r, w', t) ->
  ~ In cmd (commands t).
Proof.
  intros Hc Hrun Hin.
  pose proof (prune_merged_loop_commands _ _ _ _ _ _ Hrun) as Hall.
  rewrite Forall_forall in Hall.
  destruct (Hall _ Hin) as (line & _ & Heq & _). exact (Hc _ Heq).
Qed.

Lemma gone_loop_not_in (cmd : string) lines (w : world E) r w' t :
  (forall b, cmd <> force_delete b) ->
  prune_gone_loop E lines w = (r, w', t) ->
  ~ In cmd (commands t).
Proof.
  intros Hc Hrun Hin.
  destruct (prune_gone_loop_commands _ _ _ _ _ Hrun) as [[tl Htl] _].
  assert (Hin' : In cmd (map force_delete (gone_branch_names lines))).
  { rewrite Htl. apply in_or_app. now left. }
  apply in_map_iff in Hin'. destruct Hin' as (b & Hb & _).
  exact (Hc b (eq_sym Hb)).
Qed.


(** In a run of [prune_branches], what follows a successful
    [git branch -vv] is the gone loop on the lines of its output, and
    nothing before it is a force-deletion. *)
Lemma prune_branches_gone_phase (w : world E) r w' t out post :
  prune_branches E w = (r, w', t) ->
  first_run "git branch -vv" t = Some (0%Z, out, post) ->
  exists w1 pre,
    t = (pre ++ ERun "git branch -vv" 0 out :: post)%list
    /\ (forall b, ~ In (force_delete b) (commands pre))
    /\ prune_gone_loop E (PyStr.splitlines (PyStr.strip out)) w1 = (r, w', post).
Proof.
  intros Hrun Hfirst.
  unfold prune_branches, bind, print, opt_splitlines, ret in Hrun.
  simpl in Hrun.
  run_step_in Hrun; [|stopped Hrun; discriminate Hfirst].
  run_step_in Hrun; [|stopped Hrun; discriminate Hfirst].
  destruct (prune_merged_loop E (Some (PyStr.strip out1))
              (PyStr.splitlines (PyStr.strip out0)) w1)
    as [[[[]|e] wm] tm] eqn:Hloop; simpl in Hrun.
  - assert (Hvv : ~ In "git branch -vv" (commands tm)).
    { eapply merged_loop_not_in; [|exact Hloop]. intros b. discriminate. }
    run_step_in Hrun.
    + run_step_in Hrun.
      * destruct (prune_gone_loop E (PyStr.splitlines (PyStr.strip out3)) w3)
          as [[rg wg] tg] eqn:Hgone. simpl in Hrun.
        stopped Hrun. simpl in Hfirst.
        rewrite (first_run_app_none _ _ _ Hvv) in Hfirst. simpl in Hfirst.
        injection Hfirst as <- <-. exists w3.
        exists (EPrint (ESC ++ "[93mPruning local branches..." ++ ESC ++ "[0m")
                :: ERun "git branch --merged" 0 out0
                :: ERun "git branch --show-current" 0 out1
                :: tm ++ [ERun "git fetch --prune" 0 out2])%list.
        split; [|split; [|exact Hgone]].
        -- simpl. rewrite <- app_assoc. reflexivity.
        -- intros b. simpl. rewrite commands_app. simpl.
           intros [H|[H|H]]; try discriminate H.
           apply in_app_or in H. destruct H as [H|[H|[]]]; [|discriminate H].
           revert H. eapply merged_loop_not_in; [|exact Hloop].
           intros b'. discriminate.
      * stopped Hrun. simpl in Hfirst.
        rewrite (first_run_app_none _ _ _ Hvv) in Hfirst. simpl in Hfirst.
        injection Hfirst as ? _ _. congruence.
    + stopped Hrun. simpl in Hfirst.
      rewrite (first_run_app_none _ _ _ Hvv) in Hfirst. discriminate Hfirst.
  - assert (Hvv : ~ In "git branch -vv" (commands tm)).
    { eapply merged_loop_not_in; [|exact Hloop]. intros b. discriminate. }
    stopped Hrun. simpl in Hfirst.
    rewrite (first_run_none _ _ Hvv) in Hfirst. discriminate Hfirst.
Qed.

(** The gone loop is [force_delete_each] on the names the spec selects:
    same calls of the shell, same events, same result, same world. *)
Lemma prune_gone_loop_refines (lines : list string) (w : world E) :
  prune_gone_loop E lines w
  = force_delete_each E (gone_branch_names lines) w.
Proof.
  revert w. induction lines as [|line rest IH]; intros w; [reflexivity|].
  cbn [prune_gone_loop gone_branch_names].
  destruct (PyStr.contains "[gone]" line) eqn:Hg.
  - destruct (PyStrFacts.contains_gone_first_token line Hg) as [b Hb].
    rewrite Hb. unfold first_token in Hb.
    destruct (PyStr.split line) as [|b' ts]; [discriminate|].
    injection Hb as Hb. subst b'.
    cbn [force_delete_each]. unfold bind, run_cmd, print, force_delete.
    destruct (sh E ("git branch -D " ++ b) w) as [[rc out] w0].
    simpl. destruct (Z.eqb_spec rc 0) as [Hrc|Hrc]; simpl; [|reflexivity].
    rewrite IH.
    destruct (force_delete_each E (gone_branch_names rest) w0) as [[r1 w1] t1].
    reflexivity.
  - unfold bind, ret. rewrite IH.
    destruct (force_delete_each E (gone_branch_names rest) w)
      as [[r1 w1] t1].
    reflexivity.
Qed.

(** The calls of the shell that lead a run of [prune_branches] to a
    successful [git branch -vv], and the gone loop that follows it. *)
Lemma prune_branches_gone_chain (w : world E) r w' t out post :
  prune_branches E w = (r, w', t) ->
  first_run "git branch -vv" t = Some (0%Z, out, post) ->
  exists merged wm current wc tm wl fetched wf wv,
    sh E "git branch --merged" w = (0%Z, merged, wm)
    /\ sh E "git branch --show-current" wm = (0%Z, current, wc)
    /\ prune_merged_loop E (Some (PyStr.strip current))
         (PyStr.splitlines (PyStr.strip merged)) wc = (Ret tt, wl, tm)
    /\ sh E "git fetch --prune" wl = (0%Z, fetched, wf)
    /\ sh E "git branch -vv" wf = (0%Z, out, wv)
    /\ prune_gone_loop E (PyStr.splitlines (PyStr.strip out)) wv
       = (r, w', post).
Proof.
  intros Hrun Hfirst.
  unfold prune_branches, bind, print, opt_splitlines, ret in Hrun.
  simpl in Hrun.
  run_step_in Hrun; [|stopped Hrun; discriminate Hfirst].
  run_step_in Hrun; [|stopped Hrun; discriminate Hfirst].
  destruct (prune_merged_loop E (Some (PyStr.strip out1))
              (PyStr.splitlines (PyStr.strip out0)) w1)
    as [[[[]|e] wm] tm] eqn:Hloop; simpl in Hrun.
  - assert (Hvv : ~ In "git branch -vv" (commands tm)).
    { eapply merged_loop_not_in; [|exact Hloop]. intros b. discriminate. }
    run_step_in Hrun.
    + run_step_in Hrun.
      * destruct (prune_gone_loop E (PyStr.splitlines (PyStr.strip out3)) w3)
          as [[rg wg] tg] eqn:Hgone. simpl in Hrun.
        stopped Hrun. simpl in Hfirst.
        rewrite (first_run_app_none _ _ _ Hvv) in Hfirst. simpl in Hfirst.
        injection Hfirst as <- <-.
        exists out0, w0, out1, w1, tm, wm, out2, w2, w3.
        repeat split; assumption.
      * stopped Hrun. simpl in Hfirst.
        rewrite (first_run_app_none _ _ _ Hvv) in Hfirst. simpl in Hfirst.
        injection Hfirst as ? _ _. congruence.
    + stopped Hrun. simpl in Hfirst.
      rewrite (first_run_app_none _ _ _ Hvv) in Hfirst. discriminate Hfirst.
  - assert (Hvv : ~ In "git branch -vv" (commands tm)).
    { eapply merged_loop_not_in; [|exact Hloop]. intros b. discriminate. }
    stopped Hrun. simpl in Hfirst.
    rewrite (first_run_none _ _ Hvv) in Hfirst. discriminate Hfirst.
Qed.

(** C4.  In every run of [prune_branches] that reaches a successful
    [git branch -vv], what follows that listing is [force_delete_each]
    on the first tokens of the listing lines that contain the literal
    [[gone]], in listing order, run against the shell in the world the
    listing left: each [git branch -D] is a call of the shell, its
    return code is the shell's, and the result and the final world of
    the run are those of the deletions.  So the commands after the
    listing are always an initial segment of these force-deletions (a
    failing deletion aborts the run), exactly all of them when every
    deletion succeeds, and no force-deletion is issued anywhere else in
    the run.  The line of the spec's example names [old-feature]. *)
Theorem prune_force_deletes_gone (w : world E) r w' t out post :
  prune_branches E w = (r, w', t) ->
  first_run "git branch -vv" t = Some (0%Z, out, post) ->
  let names := gone_branch_names (PyStr.splitlines (PyStr.strip out)) in
  is_prefix (commands post) (map force_delete names)
  /\ (all_succeeded post = true ->
      commands post = map force_delete names /\ r = Ret tt)
  /\ (forall b, In (force_delete b) (commands t) ->
                In (force_delete b) (commands post))
  /\ gone_branch_names ["  old-feature  0123abc [gone] commit msg"]
     = ["old-feature"]
  /\ (exists merged wm current wc tm wl fetched wf wv,
        sh E "git branch --merged" w = (0%Z, merged, wm)
        /\ sh E "git branch --show-current" wm = (0%Z, current, wc)
        /\ prune_merged_loop E (Some (PyStr.strip current))
             (PyStr.splitlines (PyStr.strip merged)) wc = (Ret tt, wl, tm)
        /\ sh E "git fetch --prune" wl = (0%Z, fetched, wf)
        /\ sh E "git branch -vv" wf = (0%Z, out, wv)
        /\ force_delete_each E names wv = (r, w', post)).
Proof.
  intros Hrun Hfirst names.
  destruct (prune_branches_gone_phase w r w' t out post Hrun Hfirst)
    as (w1 & pre & Ht & Hpre & Hgone).
  destruct (prune_gone_loop_commands _ _ _ _ _ Hgone) as [Hp Hall].
  split; [exact Hp|]. split; [exact Hall|]. split; [|split; [reflexivity|]].
  - intros b. rewrite Ht, commands_app. simpl. intros Hin.
    apply in_app_or in Hin. destruct Hin as [Hin|[Hin|Hin]].
    + destruct (Hpre b Hin).
    + discriminate Hin.
    + exact Hin.
  - destruct (prune_branches_gone_chain w r w' t out post Hrun Hfirst)
      as (merged & wm & current & wc & tm & wl & fetched & wf & wv
          & Hm & Hc & Hl & Hf & Hv & Hg).
    exists merged, wm, current, wc, tm, wl, fetched, wf, wv.
    repeat split; try assumption.
    unfold names. rewrite <- prune_gone_loop_refines. exact Hg.
Qed.


(** A command of a run of [prune_branches] that starts with
    [git branch -d ] was issued by the merged loop, which ran on the
    outputs of the two listings. *)
Lemma prune_branches_safe_deletions (w : world E) r w' t c :
  prune_branches E w = (r, w', t) ->
  In c (commands t) ->
  String.prefix "git branch -d " c = true ->
  exists merged wm current wc rl wl tm,
    sh E "git branch --merged" w = (0%Z, merged, wm)
    /\ sh E "git branch --show-current" wm = (0%Z, current, wc)
    /\ prune_merged_loop E (Some (PyStr.strip current))
         (PyStr.splitlines (PyStr.strip merged)) wc = (rl, wl, tm)
    /\ In c (commands tm).
Proof.
  intros Hrun Hin Hpre.
  assert (Hgone : forall lines wg rg wg' tg,
             prune_gone_loop E lines wg = (rg, wg', tg) ->
             ~ In c (commands tg)).
  { intros lines wg rg wg' tg Hg Hc.
    destruct (prune_gone_loop_commands _ _ _ _ _ Hg) as [[tl Htl] _].
    assert (Hin' : In c (map force_delete (gone_branch_names lines))).
    { rewrite Htl. apply in_or_app. now left. }
    apply in_map_iff in Hin'. destruct Hin' as (b & <- & _).
    vm_compute in Hpre. discriminate Hpre. }
  match goal with |- ?G => set (goal := G) end.
  assert (HG : forall merged wm current wc rl wl tm,
             sh E "git branch --merged" w = (0%Z, merged, wm) ->
             sh E "git branch --show-current" wm = (0%Z, current, wc) ->
             prune_merged_loop E (Some (PyStr.strip current))
               (PyStr.splitlines (PyStr.strip merged)) wc = (rl, wl, tm) ->
             In c (commands tm) -> goal).
  { intros merged wm current wc rl wl tm H1 H2 H3 H4.
    exists merged, wm, current, wc, rl, wl, tm. auto. }
  clearbody goal.
  unfold prune_branches, bind, print, opt_splitlines, ret in Hrun.
  simpl in Hrun.
  run_step_in Hrun;
    [|stopped Hrun; simpl in Hin; destruct Hin as [<-|[]]; discriminate Hpre].
  run_step_in Hrun;
    [|stopped Hrun; simpl in Hin; destruct Hin as [<-|[<-|[]]];
      discriminate Hpre].
  destruct (prune_merged_loop E (Some (PyStr.strip out0))
              (PyStr.splitlines (PyStr.strip out)) w1)
    as [[rm wm] tm] eqn:Hloop.
  destruct rm as [[]|e]; simpl in Hrun.
  - run_step_in Hrun.
    + run_step_in Hrun.
      * destruct (prune_gone_loop E (PyStr.splitlines (PyStr.strip out2)) w3)
          as [[rg wg] tg] eqn:Hg. simpl in Hrun.
        stopped Hrun. simpl in Hin. rewrite commands_app in Hin. simpl in Hin.
        destruct Hin as [<-|[<-|H]]; try discriminate Hpre.
        apply in_app_or in H. destruct H as [H|[<-|[<-|H]]];
          try discriminate Hpre; [exact (HG _ _ _ _ _ _ _ eq_refl Hsh0 Hloop H)|].
        destruct (Hgone _ _ _ _ _ Hg H).
      * stopped Hrun. simpl in Hin. rewrite commands_app in Hin. simpl in Hin.
        destruct Hin as [<-|[<-|H]]; try discriminate Hpre.
        apply in_app_or in H. destruct H as [H|[<-|[<-|[]]]];
          try discriminate Hpre. exact (HG _ _ _ _ _ _ _ eq_refl Hsh0 Hloop H).
    + stopped Hrun. simpl in Hin. rewrite commands_app in Hin. simpl in Hin.
      destruct Hin as [<-|[<-|H]]; try discriminate Hpre.
      apply in_app_or in H. destruct H as [H|[<-|[]]];
        try discriminate Hpre. exact (HG _ _ _ _ _ _ _ eq_refl Hsh0 Hloop H).
  - stopped Hrun. simpl in Hin.
    destruct Hin as [<-|[<-|H]]; try discriminate Hpre. exact (HG _ _ _ _ _ _ _ eq_refl Hsh0 Hloop H).
Qed.

(** On a listing in git's format, the merged loop deletes listed
    branches only, each command being four words. *)
Lemma prune_merged_loop_listed (entries : list (bool * string)) (cur : string)
    (w : world E) r w' t c :
  forallb (fun e => branch_name (snd e)) entries = true ->
  prune_merged_loop E (Some cur)
    (PyStr.splitlines (PyStr.strip (listing entries))) w = (r, w', t) ->
  In c (commands t) ->
  exists b, c = safe_delete b
            /\ PyStr.split c = ["git"; "branch"; "-d"; b]
            /\ In b (map snd entries)
            /\ b <> cur /\ b <> "main" /\ b <> "master"
            /\ (forallb (fun e => plain_word (snd e)) entries = true ->
                plain_word b = true).
Proof.
  intros Hall Hrun Hin.
  pose proof (prune_merged_loop_commands _ _ _ _ _ _ Hrun) as Hc.
  rewrite Forall_forall in Hc.
  destruct (Hc _ Hin) as (line & Hline & -> & _ & Hcur & Hmain & Hmaster).
  assert (Hb : In (strip_marker line) (map snd entries)).
  { rewrite <- (ListingFacts.existing_branches_of_listing entries Hall).
    unfold existing_branches. now apply in_map. }
  assert (Hname : branch_name (strip_marker line) = true).
  { apply in_map_iff in Hb. destruct Hb as (e & <- & He).
    rewrite forallb_forall in Hall. exact (Hall e He). }
  destruct (ListingFacts.branch_name_inv _ Hname) as (Hns & d & s & Heq & _).
  exists (strip_marker line). split; [reflexivity|].
  split; [apply WordFacts.words_safe_delete; [exact Hns | congruence]|].
  split; [exact Hb|]. split; [congruence|].
  split; [assumption|]. split; [assumption|].
  intros Hplain. apply in_map_iff in Hb. destruct Hb as (e & <- & He).
  rewrite forallb_forall in Hplain. exact (Hplain e He).
Qed.

(** C3, as amended.  The merged loop only issues safe deletions
    ([git branch -d]), and the name it passes, which is the listing line
    after [strip()] and [lstrip('* ')], is never empty, the
    current-branch string, [main] or [master], whatever the merged
    listing and the current branch are; so the commands
    [git branch -d main], [git branch -d master] and [git branch -d] of
    what [git branch --show-current] reported do not occur in a run of
    [prune_branches].  When [git branch --merged] prints a listing in
    git's format for whitespace-free names (each after [* ] or two
    spaces), every command of the whole run that starts with
    [git branch -d ] is exactly the four words [git], [branch], [-d] and
    one listed branch, which is not the current branch, [main] or
    [master], and which is a plain word (letters, digits, [-], [.], [/]
    and [_]) when the listed names are.  A line with any other marker
    keeps it (a line [+ main]
    gives the five words of [git branch -d + main]), and the
    force-deletions of the gone loop are not covered. *)
Theorem prune_merged_protects :
  (forall cur lines (w : world E) r w' t,
     prune_merged_loop E cur lines w = (r, w', t) ->
     forall c, In c (commands t) ->
       exists b, c = safe_delete b /\ b <> "" /\ Some b <> cur
                 /\ b <> "main" /\ b <> "master")
  /\ (forall (w : world E) r w' t rc out post,
        prune_branches E w = (r, w', t) ->
        first_run "git branch --show-current" t = Some (rc, out, post) ->
        forall name,
          name = PyStr.strip out \/ name = "main" \/ name = "master" ->
          ~ In (safe_delete name) (commands t))
  /\ (forall entries cur (w : world E) r w' t,
        forallb (fun e => branch_name (snd e)) entries = true ->
        prune_merged_loop E (Some cur)
          (PyStr.splitlines (PyStr.strip (listing entries))) w = (r, w', t) ->
        forall c, In c (commands t) ->
          exists b, c = safe_delete b
                    /\ PyStr.split c = ["git"; "branch"; "-d"; b]
                    /\ In b (map snd entries)
                    /\ b <> cur /\ b <> "main" /\ b <> "master"
                    /\ (forallb (fun e => plain_word (snd e)) entries = true ->
                        plain_word b = true))
  /\ (forall entries (w : world E) r w' t rcm wm rcc current wc,
        forallb (fun e => branch_name (snd e)) entries = true ->
        prune_branches E w = (r, w', t) ->
        sh E "git branch --merged" w = (rcm, listing entries, wm) ->
        sh E "git branch --show-current" wm = (rcc, current, wc) ->
        forall c, In c (commands t) ->
          String.prefix "git branch -d " c = true ->
          exists b, c = safe_delete b
                    /\ PyStr.split c = ["git"; "branch"; "-d"; b]
                    /\ In b (map snd entries)
                    /\ b <> PyStr.strip current
                    /\ b <> "main" /\ b <> "master"
                    /\ (forallb (fun e => plain_word (snd e)) entries = true ->
                        plain_word b = true)).
Proof.
  split; [|split; [|split]].
  - intros cur lines w r w' t Hrun c Hin.
    pose proof (prune_merged_loop_commands _ _ _ _ _ _ Hrun) as Hall.
    rewrite Forall_forall in Hall.
    destruct (Hall _ Hin) as (line & _ & -> & Hd).
    exists (strip_marker line). split; [reflexivity | exact Hd].
  - intros w r w' t rc out post Hrun Hfirst name Hname.
    unfold prune_branches, bind, print, opt_splitlines, ret in Hrun.
    simpl in Hrun.
    run_step_in Hrun;
      [|stopped Hrun; simpl; intros [H|[]]; discriminate H].
    run_step_in Hrun;
      [|stopped Hrun; simpl; intros [H|[H|[]]]; discriminate H].
    destruct (prune_merged_loop E (Some (PyStr.strip out1))
                (PyStr.splitlines (PyStr.strip out0)) w1)
      as [[rm wm] tm] eqn:Hloop.
    assert (Hm : forall n,
               n = PyStr.strip out1 \/ n = "main" \/ n = "master" ->
               ~ In (safe_delete n) (commands tm)).
    { intros n Hn Hin.
      pose proof (prune_merged_loop_commands _ _ _ _ _ _ Hloop) as Hall.
      rewrite Forall_forall in Hall.
      destruct (Hall _ Hin) as (line & _ & Heq & Hne & Hcur & Hmain & Hmaster).
      apply PyStrFacts.safe_delete_inj in Heq. subst n.
      destruct Hn as [H|[H|H]]; [|contradiction..].
      apply Hcur. now rewrite H. }
    destruct rm as [[]|e]; simpl in Hrun.
    + run_step_in Hrun.
      * run_step_in Hrun.
        -- destruct (prune_gone_loop E (PyStr.splitlines (PyStr.strip out3)) w3)
             as [[rg wg] tg] eqn:Hgone. simpl in Hrun.
           stopped Hrun. simpl in Hfirst. injection Hfirst as _ <- _.
           simpl. rewrite commands_app. simpl.
           intros [H|[H|H]]; try discriminate H.
           apply in_app_or in H. destruct H as [H|[H|[H|H]]];
             try discriminate H; [exact (Hm _ Hname H)|].
           revert H. eapply gone_loop_not_in; [|exact Hgone].
           intros b. discriminate.
        -- stopped Hrun. simpl in Hfirst. injection Hfirst as _ <- _.
           simpl. rewrite commands_app. simpl.
           intros [H|[H|H]]; try discriminate H.
           apply in_app_or in H. destruct H as [H|[H|[H|[]]]];
             try discriminate H. exact (Hm _ Hname H).
      * stopped Hrun. simpl in Hfirst. injection Hfirst as _ <- _.
        simpl. rewrite commands_app. simpl.
        intros [H|[H|H]]; try discriminate H.
        apply in_app_or in H. destruct H as [H|[H|[]]];
          try discriminate H. exact (Hm _ Hname H).
    + stopped Hrun. simpl in Hfirst. injection Hfirst as _ <- _. simpl.
      intros [H|[H|H]]; try discriminate H. exact (Hm _ Hname H).
  - intros entries cur w r w' t Hall Hrun c Hin.
    exact (prune_merged_loop_listed entries cur w r w' t c Hall Hrun Hin).
  - intros entries w r w' t rcm wm rcc current wc Hall Hrun Hm Hc c Hin Hpre.
    destruct (prune_branches_safe_deletions w r w' t c Hrun Hin Hpre)
      as (merged & wm0 & current0 & wc0 & rl & wl & tm
          & Hm0 & Hc0 & Hloop & Hin0).
    rewrite Hm in Hm0. injection Hm0 as _ <- <-.
    rewrite Hc in Hc0. injection Hc0 as _ <- <-.
    exact (prune_merged_loop_listed entries _ _ _ _ _ c Hall Hloop Hin0).
Qed.

End PruneFacts.

(** The run of [prune_branches] on [prune_env]: five calls of the shell
    lead to the verbose listing, three force-deletions follow. *)
Lemma prune_force_deletes_gone_witness :
  exists r w' t out post,
    prune_branches prune_env 0%nat = (r, w', t)
    /\ first_run "git branch -vv" t = Some (0%Z, out, post)
    /\ gone_branch_names (PyStr.splitlines (PyStr.strip out))
       = ["*"; "main"; "old-feature"]
    /\ commands post
       = ["git branch -D *"; "git branch -D main"; "git branch -D old-feature"]
    /\ (r, w') = (Ret tt, 8%nat)
    /\ force_delete_each prune_env ["*"; "main"; "old-feature"] 5%nat
       = (r, w', post)
    /\ (all_succeeded post = true ->
        commands post
        = map force_delete
            (gone_branch_names (PyStr.splitlines (PyStr.strip out)))
        /\ r = Ret tt)
    /\ (exists merged wm current wc tm wl fetched wf wv,
          sh prune_env "git branch --merged" 0%nat = (0%Z, merged, wm)
          /\ sh prune_env "git branch --show-current" wm = (0%Z, current, wc)
          /\ prune_merged_loop prune_env (Some (PyStr.strip current))
               (PyStr.splitlines (PyStr.strip merged)) wc = (Ret tt, wl, tm)
          /\ sh prune_env "git fetch --prune" wl = (0%Z, fetched, wf)
          /\ sh prune_env "git branch -vv" wf = (0%Z, out, wv)
          /\ force_delete_each prune_env
               (gone_branch_names (PyStr.splitlines (PyStr.strip out))) wv
             = (r, w', post)).
Proof.
  do 5 eexists. split; [reflexivity|]. split; [reflexivity|].
  do 4 (split; [reflexivity|]).
  destruct (prune_force_deletes_gone prune_env 0%nat _ _ _ _ _
              eq_refl eq_refl) as (_ & Hall & _ & _ & Hchain).
  split; [exact Hall | exact Hchain].
Defined.


Lemma prune_merged_protects_witness :
  exists r w' t post,
    prune_branches prune_env 0%nat = (r, w', t)
    /\ first_run "git branch --show-current" t = Some (0%Z, "dev" ++ nl, post)
    /\ ~ In (safe_delete "dev") (commands t)
    /\ ~ In (safe_delete "main") (commands t)
    /\ ~ In (safe_delete "master") (commands t)
    /\ In "git branch -d old" (commands t)
    /\ exists b, "git branch -d old" = safe_delete b
                 /\ PyStr.split "git branch -d old" = ["git"; "branch"; "-d"; b]
                 /\ In b ["dev"; "main"; "old"; "master"]
                 /\ b <> "dev" /\ b <> "main" /\ b <> "master"
                 /\ plain_word b = true.
Proof.
  do 4 eexists. split; [reflexivity|]. split; [reflexivity|].
  split; [|split; [|split; [|split]]].
  - apply (proj1 (proj2 (prune_merged_protects prune_env)) 0%nat _ _ _ _ _ _
             eq_refl eq_refl); simpl; auto.
  - apply (proj1 (proj2 (prune_merged_protects prune_env)) 0%nat _ _ _ _ _ _
             eq_refl eq_refl); simpl; auto.
  - apply (proj1 (proj2 (prune_merged_protects prune_env)) 0%nat _ _ _ _ _ _
             eq_refl eq_refl); simpl; auto.
  - simpl. auto.
  - assert (Hin : In "git branch -d old"
                    (commands (trace_of (prune_branches prune_env 0%nat))))
      by (simpl; auto).
    destruct (proj2 (proj2 (proj2 (prune_merged_protects prune_env)))
                merged_branches_example 0%nat _ _ _ 0%Z 1%nat 0%Z
                ("dev" ++ nl) 2%nat eq_refl eq_refl eq_refl eq_refl
                "git branch -d old" Hin eq_refl)
      as (b & H1 & H2 & H3 & H4 & H5 & H6 & H7).
    exact (ex_intro _ b
             (conj H1 (conj H2 (conj H3 (conj H4 (conj H5
                (conj H6 (H7 eq_refl)))))))).
Defined.

(** C3 as stated fails: with [main] marked gone in the verbose listing,
    [prune_branches] issues [git branch -D main], although [main] is in
    the merged listing and was skipped there. *)
Lemma prune_force_deletes_main :
  commands (trace_of (prune_branches gone_main_env 0%nat))
  = ["git branch --merged"; "git branch --show-current";
     "git fetch --prune"; "git branch -vv"; "git branch -D main"].
Proof. reflexivity. Qed.

(* ================================================================== *)
(** ** Fetching the metadata *)
(* ================================================================== *)

Section CheckoutFacts.

Variable E : Env.

Lemma fetch_pr_json_ok owner repo n (w : world E) v w0 :
  urlopen_json E (pr_url owner repo n) w = (Ret v, w0) ->
  fetch_pr_json E owner repo n w = (Ret v, w0, [EHttp (pr_url owner repo n)]).
Proof.
  intros H. unfold fetch_pr_json, try_except_HTTPError, http_get.
  rewrite H. reflexivity.
Qed.

Lemma fetch_pr_json_http_error owner repo n (w : world E) code msg w0 :
  urlopen_json E (pr_url owner repo n) w = (Raise (HTTPError code msg), w0) ->
  fetch_pr_json E owner repo n w
  = (Raise (SystemExit 1), w0,
     [EHttp (pr_url owner repo n);
      EPrint (ESC ++ "[91mError fetching PR data: "
              ++ Py.str_HTTPError code msg ++ ESC ++ "[0m")]).
Proof.
  intros H. unfold fetch_pr_json, try_except_HTTPError, http_get.
  rewrite H. reflexivity.
Qed.

Lemma fetch_pr_json_uncaught owner repo n (w : world E) e w0 :
  urlopen_json E (pr_url owner repo n) w = (Raise e, w0) ->
  (forall code msg, e <> HTTPError code msg) ->
  fetch_pr_json E owner repo n w
  = (Raise e, w0, [EHttp (pr_url owner repo n)]).
Proof.
  intros H He. unfold fetch_pr_json, try_except_HTTPError, http_get.
  rewrite H. destruct e; try reflexivity. destruct (He code msg eq_refl).
Qed.

(** [checkout_pr] stops where [fetch_pr_json] raises. *)
Lemma checkout_pr_fetch_raises n owner repo (w : world E) e w0 t :
  fetch_pr_json E owner repo n w = (Raise e, w0, t) ->
  checkout_pr E n owner repo w = (Raise e, w0, t).
Proof. intros H. unfold checkout_pr, bind. rewrite H. reflexivity. Qed.

(** The open path: either one of the five subscripted fields is missing
    and the run stops before it prints or runs anything, or the banner is
    printed and the git commands follow. *)
Lemma checkout_pr_open n owner repo (w : world E) fields w0 :
  urlopen_json E (pr_url owner repo n) w = (Ret (JObj fields), w0) ->
  merged_flag fields = false -> closed_flag fields = false ->
  let pr := JObj fields in
  match subscript pr ["head"; "repo"; "full_name"],
        subscript pr ["head"; "repo"; "owner"; "username"],
        subscript pr ["head"; "ref"],
        subscript pr ["base"; "ref"],
        subscript pr ["title"] with
  | Ret pr_repo, Ret pr_author, Ret pr_branch, Ret base_branch, Ret title =>
      let lb := local_branch_name n (fmt E pr_author) (fmt E pr_branch) in
      forall r w' t,
        refresh_local_branch E n pr lb pr_repo pr_branch base_branch w0
        = (r, w', t) ->
        checkout_pr E n owner repo w
        = (r, w', (EHttp (pr_url owner repo n)
                   :: banner E n title pr_repo base_branch lb ++ t)%list)
  | _, _, _, _, _ =>
      exists e, checkout_pr E n owner repo w
                = (Raise e, w0, [EHttp (pr_url owner repo n)])
  end.
Proof.
  intros Hhttp Hm Hc pr. unfold merged_flag in Hm. unfold closed_flag in Hc.
  assert (Hstop : forall (k : json -> M E unit) e,
             k (JObj fields) w0 = (Raise e, w0, []) ->
             bind (fetch_pr_json E owner repo n) k w
             = (Raise e, w0, [EHttp (pr_url owner repo n)])).
  { intros k e Hk.
    apply (bind_run E _ _ _ _ _ _ _ _ _ (fetch_pr_json_ok _ _ _ _ _ _ Hhttp) Hk). }
  subst pr. unfold subscript. unfold checkout_pr.
  destruct (Py.getitem (JObj fields) "head") as [head|e1] eqn:Hhead;
    [|exists e1; apply Hstop; straight_line].
  destruct (Py.getitem head "repo") as [hrepo|e2] eqn:Hrepo;
    [|exists e2; apply Hstop; straight_line].
  destruct (Py.getitem hrepo "full_name") as [pr_repo|e3] eqn:Hfull;
    [|exists e3; apply Hstop; straight_line].
  destruct (Py.getitem hrepo "owner") as [howner|e4] eqn:Howner;
    [|exists e4; apply Hstop; straight_line].
  destruct (Py.getitem howner "username") as [pr_author|e5] eqn:Hauthor;
    [|exists e5; apply Hstop; straight_line].
  destruct (Py.getitem head "ref") as [pr_branch|e6] eqn:Hbranch;
    [|exists e6; apply Hstop; straight_line].
  destruct (Py.getitem (JObj fields) "base") as [base|e7] eqn:Hbase;
    [|exists e7; apply Hstop; straight_line].
  destruct (Py.getitem base "ref") as [base_branch|e8] eqn:Hbref;
    [|exists e8; apply Hstop; straight_line].
  destruct (Py.getitem (JObj fields) "title") as [title|e9] eqn:Htitle;
    [|exists e9; apply Hstop; straight_line].
  intros r w' t Href.
  apply (bind_run E _ _ _ _ _ _ _ _ _ (fetch_pr_json_ok _ _ _ _ _ _ Hhttp)).
  straight_line. unfold banner. simpl.
  repeat apply bind_print. exact Href.
Qed.


Lemma eq_opt_Some (s : string) (v : json) :
  Py.eq_opt (Some s) v = true <-> v = JStr s.
Proof.
  unfold Py.eq_opt.
  destruct v; try (split; [discriminate | discriminate]).
  rewrite String.eqb_eq. split; [intros -> | intros [= ->]]; reflexivity.
Qed.

(** The three ways [checkout_base] can run. *)
Lemma checkout_base_run base (w : world E) r w1 t :
  checkout_base E base w = (r, w1, t) ->
  exists rc out,
    (rc <> 0%Z /\ t = [ERun "git branch --show-current" rc out]
     /\ r = Raise (CalledProcessError rc "git branch --show-current"))
    \/ (rc = 0%Z /\ base = JStr (PyStr.strip out)
        /\ t = [ERun "git branch --show-current" 0 out] /\ r = Ret tt)
    \/ (rc = 0%Z /\ base <> JStr (PyStr.strip out)
        /\ exists rc1 out1,
             t = [ERun "git branch --show-current" 0 out;
                  ERun (to_base E base) rc1 out1]
             /\ (rc1 = 0%Z /\ r = Ret tt
                 \/ rc1 <> 0%Z
                    /\ r = Raise (CalledProcessError rc1 (to_base E base)))).
Proof.
  intros Hrun. unfold checkout_base, bind, ret in Hrun.
  run_step_in Hrun.
  - destruct (Py.eq_opt (Some (PyStr.strip out)) base) eqn:Heq; simpl in Hrun.
    + stopped Hrun. exists 0%Z, out. right. left.
      apply eq_opt_Some in Heq. auto.
    + assert (Hne : base <> JStr (PyStr.strip out)).
      { intros Hb. apply eq_opt_Some in Hb. congruence. }
      run_step_in Hrun; stopped Hrun; exists 0%Z, out; right; right;
        (split; [reflexivity|]); (split; [exact Hne|]);
        eexists; eexists; (split; [reflexivity|]); auto.
  - stopped Hrun. exists rc, out. left. auto.
Qed.

(** The three ways [delete_existing] can run. *)
Lemma delete_existing_run lb (w : world E) r w1 t :
  delete_existing E lb w = (r, w1, t) ->
  exists rc out,
    (rc <> 0%Z /\ t = [ERun "git branch" rc out]
     /\ r = Raise (CalledProcessError rc "git branch"))
    \/ (rc = 0%Z /\ PyStr.mem lb (existing_branches out) = false
        /\ t = [ERun "git branch" 0 out;
                EPrint (ESC ++ "[96mBranch " ++ lb ++ " does not exist." ++ ESC ++ "[0m")]
        /\ r = Ret tt)
    \/ (rc = 0%Z /\ PyStr.mem lb (existing_branches out) = true
        /\ exists rc1 out1,
             t = [ERun "git branch" 0 out;
                  EPrint (ESC ++ "[95mBranch " ++ lb ++ " exists, refreshing it." ++ ESC ++ "[0m");
                  ERun (force_delete lb) rc1 out1]
             /\ (rc1 = 0%Z /\ r = Ret tt
                 \/ rc1 <> 0%Z
                    /\ r = Raise (CalledProcessError rc1 (force_delete lb)))).
Proof.
  intros Hrun. unfold delete_existing, bind, ret, opt_splitlines, print in Hrun.
  run_step_in Hrun.
  - fold (existing_branches out) in Hrun.
    destruct (PyStr.mem lb (existing_branches out)) eqn:Hmem; simpl in Hrun.
    + run_step_in Hrun; stopped Hrun; exists 0%Z, out; right; right;
        (split; [reflexivity|]); (split; [assumption|]);
        eexists; eexists; (split; [reflexivity|]); auto.
    + stopped Hrun. exists 0%Z, out. right. left. auto.
  - stopped Hrun. exists rc, out. left. auto.
Qed.

(** [create_and_pull] starts with the creation; the pull is its only
    other command. *)
Lemma create_and_pull_run n pr lb pr_repo pr_branch base (w : world E) r w1 t :
  create_and_pull E n pr lb pr_repo pr_branch base w = (r, w1, t) ->
  exists rc out rest,
    t = ERun (create_branch E lb base) rc out :: rest
    /\ (forall c, In c (commands rest) -> c = pull_pr E pr_repo pr_branch).
Proof.
  intros Hrun. unfold create_and_pull, bind, print, lift in Hrun.
  run_step_in Hrun.
  - run_step_in Hrun.
    + destruct (Py.getitem pr "title"); simpl in Hrun; stopped Hrun;
        do 3 eexists; (split; [reflexivity|]); simpl;
        intros c [<-|[]]; reflexivity.
    + stopped Hrun. do 3 eexists. split; [reflexivity|]. simpl.
      intros c [<-|[]]; reflexivity.
  - stopped Hrun. do 3 eexists. split; [reflexivity|]. simpl. tauto.
Qed.

Lemma checkout_base_commands base (w : world E) r w1 t c :
  checkout_base E base w = (r, w1, t) -> In c (commands t) ->
  c = "git branch --show-current" \/ c = to_base E base.
Proof.
  intros Hrun Hin.
  destruct (checkout_base_run _ _ _ _ _ Hrun)
    as (rc & out & [(_ & -> & _)|[(_ & _ & -> & _)|(_ & _ & rc1 & out1 & -> & _)]]);
    simpl in Hin; intuition.
Qed.

Lemma delete_existing_commands lb (w : world E) r w1 t c :
  delete_existing E lb w = (r, w1, t) -> In c (commands t) ->
  c = "git branch" \/ c = force_delete lb.
Proof.
  intros Hrun Hin.
  destruct (delete_existing_run _ _ _ _ _ Hrun)
    as (rc & out & [(_ & -> & _)|[(_ & _ & -> & _)|(_ & _ & rc1 & out1 & -> & _)]]);
    simpl in Hin; intuition.
Qed.

Lemma create_and_pull_commands n pr lb pr_repo pr_branch base
    (w : world E) r w1 t c :
  create_and_pull E n pr lb pr_repo pr_branch base w = (r, w1, t) ->
  In c (commands t) ->
  c = create_branch E lb base \/ c = pull_pr E pr_repo pr_branch.
Proof.
  intros Hrun Hin.
  destruct (create_and_pull_run _ _ _ _ _ _ _ _ _ _ Hrun)
    as (rc & out & rest & -> & Hrest).
  simpl in Hin. destruct Hin as [<-|Hin]; auto.
Qed.

(** How the three steps compose: the first that raises ends the run. *)
Lemma refresh_local_branch_run n pr lb pr_repo pr_branch base
    (w : world E) r w' t :
  refresh_local_branch E n pr lb pr_repo pr_branch base w = (r, w', t) ->
  exists r1 w1 t1,
    checkout_base E base w = (r1, w1, t1)
    /\ match r1 with
       | Raise e => r = Raise e /\ t = t1
       | Ret _ =>
           exists r2 w2 t2,
             delete_existing E lb w1 = (r2, w2, t2)
             /\ match r2 with
                | Raise e => r = Raise e /\ t = (t1 ++ t2)%list
                | Ret _ =>
                    exists t3,
                      create_and_pull E n pr lb pr_repo pr_branch base w2
                      = (r, w', t3)
                      /\ t = (t1 ++ t2 ++ t3)%list
                end
       end.
Proof.
  intros Hrun. unfold refresh_local_branch, bind in Hrun.
  destruct (checkout_base E base w) as [[r1 w1] t1].
  exists r1, w1, t1. split; [reflexivity|].
  destruct r1 as [[]|e]; [|stopped Hrun; auto].
  destruct (delete_existing E lb w1) as [[r2 w2] t2].
  exists r2, w2, t2. split; [reflexivity|].
  destruct r2 as [[]|e]; [|stopped Hrun; auto].
  destruct (create_and_pull E n pr lb pr_repo pr_branch base w2)
    as [[r3 w3] t3].
  stopped Hrun. exists t3. auto.
Qed.

(** A run of [checkout_pr] on an open pull request: the fetch, the
    banner, then the git commands. *)
Lemma checkout_pr_open_run n owner repo (w : world E) fields w0
    pr_repo pr_author pr_branch base title r w' t :
  open_pr E n owner repo w fields w0 pr_repo pr_author pr_branch base title ->
  checkout_pr E n owner repo w = (r, w', t) ->
  let lb := local_branch_name n (fmt E pr_author) (fmt E pr_branch) in
  exists t',
    t = (EHttp (pr_url owner repo n)
         :: banner E n title pr_repo base lb ++ t')%list
    /\ refresh_local_branch E n (JObj fields) lb pr_repo pr_branch base w0
       = (r, w', t').
Proof.
  intros (Hhttp & Hm & Hc & H1 & H2 & H3 & H4 & H5) Hrun lb.
  pose proof (checkout_pr_open n owner repo w fields w0 Hhttp Hm Hc) as Hopen.
  cbv zeta in Hopen. rewrite H1, H2, H3, H4, H5 in Hopen. fold lb in Hopen.
  destruct (refresh_local_branch E n (JObj fields) lb pr_repo pr_branch base w0)
    as [[r0 w1] t0] eqn:Href.
  rewrite (Hopen _ _ _ eq_refl) in Hrun. stopped Hrun.
  exists t0. auto.
Qed.






(** C5.  In a run of [checkout_pr] on an open pull request, the local
    branch is named [PR/<pr_number>/<author>-<source_branch>], with the
    author [head.repo.owner.username] and the source branch [head.ref] as
    the f-string formats them (a string as itself): this name is printed
    on the fourth banner line and is the one the git commands of the run
    delete, create and pull into.  For PR 42 by [alice] from [feature-x]
    it is [PR/42/alice-feature-x]. *)
Theorem local_branch_of_open_pr n owner repo (w : world E) fields w0
    pr_repo pr_author pr_branch base title r w' t :
  open_pr E n owner repo w fields w0 pr_repo pr_author pr_branch base title ->
  checkout_pr E n owner repo w = (r, w', t) ->
  let lb := "PR/" ++ n ++ "/" ++ fmt E pr_author ++ "-" ++ fmt E pr_branch in
  (exists t',
     t = (EHttp (pr_url owner repo n)
          :: banner E n title pr_repo base lb ++ t')%list
     /\ forall c, In c (commands t') ->
          c = "git branch --show-current" \/ c = to_base E base
          \/ c = "git branch" \/ c = force_delete lb
          \/ c = create_branch E lb base \/ c = pull_pr E pr_repo pr_branch)
  /\ In (EPrint (ESC ++ "[90mLocal branch  : " ++ lb ++ ESC ++ "[0m")) t
  /\ (forall author branch, fmt E (JStr author) = author
                            /\ fmt E (JStr branch) = branch)
  /\ local_branch_name "42" "alice" "feature-x" = "PR/42/alice-feature-x".
Proof.
  intros Hopen Hrun lb.
  destruct (checkout_pr_open_run _ _ _ _ _ _ _ _ _ _ _ _ _ _ Hopen Hrun)
    as (t' & -> & Href).
  change (local_branch_name n (fmt E pr_author) (fmt E pr_branch)) with lb in *.
  split; [|split; [|split; [|reflexivity]]].
  - exists t'. split; [reflexivity|]. intros c Hin.
    destruct (refresh_local_branch_run _ _ _ _ _ _ _ _ _ _ Href)
      as (r1 & w1 & t1 & Hbase & Hrest).
    assert (H1 := fun H => checkout_base_commands _ _ _ _ _ c Hbase H).
    destruct r1 as [[]|e1]; [|destruct Hrest as [_ ->]; intuition].
    destruct Hrest as (r2 & w2 & t2 & Hdel & Hrest).
    assert (H2 := fun H => delete_existing_commands _ _ _ _ _ c Hdel H).
    destruct r2 as [[]|e2].
    + destruct Hrest as (t3 & Hcp & ->).
      assert (H3 := fun H => create_and_pull_commands _ _ _ _ _ _ _ _ _ _ c Hcp H).
      rewrite !commands_app in Hin.
      apply in_app_or in Hin. destruct Hin as [Hin|Hin]; [intuition|].
      apply in_app_or in Hin. destruct Hin as [Hin|Hin]; intuition.
    + destruct Hrest as [_ ->]. rewrite commands_app in Hin.
      apply in_app_or in Hin. destruct Hin as [Hin|Hin]; intuition.
  - unfold banner. simpl. auto 6.
  - intros author branch. split; reflexivity.
Qed.



(** C2, as amended.  When the fetch raises, [checkout_pr] stops there and
    no git command is issued.  An [HTTPError] (a non-2xx answer) is
    caught: the red error line is printed and the process exits with
    code 1.  A [URLError] (the connection failed) is not caught: it
    leaves [fetch_pr_json] as it is, nothing is printed by the script, and
    the interpreter ends with status 1. *)
Theorem fetch_failure n owner repo (w : world E) e w0 :
  urlopen_json E (pr_url owner repo n) w = (Raise e, w0) ->
  let url := pr_url owner repo n in
  (exists e', checkout_pr E n owner repo w
              = (Raise e', w0, trace_of (fetch_pr_json E owner repo n w)))
  /\ commands (trace_of (checkout_pr E n owner repo w)) = []
  /\ (forall code msg, e = HTTPError code msg ->
      fetch_pr_json E owner repo n w
      = (Raise (SystemExit 1), w0,
         [EHttp url;
          EPrint (ESC ++ "[91mError fetching PR data: "
                  ++ Py.str_HTTPError code msg ++ ESC ++ "[0m")])
      /\ exit_status (result_of (checkout_pr E n owner repo w)) = 1%Z)
  /\ (forall reason, e = URLError reason ->
      fetch_pr_json E owner repo n w = (Raise (URLError reason), w0, [EHttp url])
      /\ exit_status (result_of (checkout_pr E n owner repo w)) = 1%Z).
Proof.
  intros Hhttp url.
  assert (Hfetch : exists e' t,
             fetch_pr_json E owner repo n w = (Raise e', w0, t)
             /\ commands t = []).
  { destruct e;
      try (eexists; eexists; split;
           [apply fetch_pr_json_uncaught;
            [exact Hhttp | intros; discriminate] | reflexivity]).
    eexists. eexists. split;
      [apply fetch_pr_json_http_error; exact Hhttp | reflexivity]. }
  destruct Hfetch as (e' & t & Hf & Hcmd).
  pose proof (checkout_pr_fetch_raises _ _ _ _ _ _ _ Hf) as Hco.
  split; [exists e'; rewrite Hco, Hf; reflexivity|].
  split; [rewrite Hco; exact Hcmd|].
  split.
  - intros code msg ->.
    pose proof (fetch_pr_json_http_error _ _ _ _ _ _ _ Hhttp) as H.
    split; [exact H|].
    rewrite (checkout_pr_fetch_raises _ _ _ _ _ _ _ H). reflexivity.
  - intros reason ->.
    assert (H : fetch_pr_json E owner repo n w
                = (Raise (URLError reason), w0, [EHttp url])).
    { apply fetch_pr_json_uncaught; [exact Hhttp | intros; discriminate]. }
    split; [exact H|].
    rewrite (checkout_pr_fetch_raises _ _ _ _ _ _ _ H). reflexivity.
Qed.


(** C8, as amended.  [main] on the parsed arguments: with [--prune] it
    is the prune flow, whatever [pr_number] is; otherwise, with a
    [pr_number] that is not the empty string, it is the checkout flow on
    that number with the owner and repository of the arguments, which
    default to [blender] and [blender]; otherwise (no [pr_number], or an
    empty one) the help is printed, nothing is run or fetched, and the
    exit status is 0. *)
Theorem main_dispatch (args : Namespace) (w : world E) :
  (prune args = true -> main E args w = prune_branches E w)
  /\ (prune args = false ->
      forall n, pr_number args = Some n -> n <> "" ->
        main E args w = checkout_pr E n (owner args) (repo args) w)
  /\ (prune args = false ->
      pr_number args = None \/ pr_number args = Some "" ->
      main E args w = (Ret tt, w, [EHelp])
      /\ exit_status (result_of (main E args w)) = 0%Z
      /\ commands (trace_of (main E args w)) = []
      /\ filter is_http (trace_of (main E args w)) = [])
  /\ owner default_args = "blender" /\ repo default_args = "blender"
  /\ pr_number default_args = None /\ prune default_args = false.
Proof.
  unfold main.
  split; [intros ->; reflexivity|].
  split.
  - intros -> n -> Hn. apply String.eqb_neq in Hn. rewrite Hn. reflexivity.
  - split; [|repeat split].
    intros -> [-> | ->]; repeat split.
Qed.

End CheckoutFacts.

(* ================================================================== *)
(** ** The theorems on the fake environments *)
(* ================================================================== *)



Lemma fetch_failure_witness :
  urlopen_json not_found_env (pr_url "blender" "blender" "42") 0%nat
  = (Raise (HTTPError 404 "Not Found"), 1%nat)
  /\ fetch_pr_json not_found_env "blender" "blender" "42" 0%nat
     = (Raise (SystemExit 1), 1%nat,
        [EHttp pr42;
         EPrint (ESC ++ "[91mError fetching PR data: HTTP Error 404: Not Found"
                 ++ ESC ++ "[0m")])
  /\ commands (trace_of (checkout_pr not_found_env "42" "blender" "blender" 0%nat))
     = [].
Proof.
  split; [reflexivity|]. split.
  - apply (proj1 (proj2 (proj2
             (fetch_failure not_found_env "42" "blender" "blender" 0%nat
                _ 1%nat eq_refl))) 404%Z "Not Found" eq_refl).
  - apply (proj1 (proj2
             (fetch_failure not_found_env "42" "blender" "blender" 0%nat
                _ 1%nat eq_refl))).
Defined.

(** C2 as stated fails: when the connection fails, [fetch_pr_json] prints
    nothing and does not exit with [sys.exit(1)]; the [URLError] leaves it
    uncaught. *)
Lemma fetch_connection_failure_uncaught :
  fetch_pr_json refused_env "blender" "blender" "42" 0%nat
  = (Raise (URLError "[Errno 111] Connection refused"), 1%nat, [EHttp pr42]).
Proof. reflexivity. Qed.



Lemma main_dispatch_witness :
  main fresh_env args_prune_42 0%nat = prune_branches fresh_env 0%nat
  /\ main fresh_env args_42 0%nat
     = checkout_pr fresh_env "42" "blender" "blender" 0%nat
  /\ main fresh_env default_args 0%nat = (Ret tt, 0%nat, [EHelp]).
Proof.
  split; [|split].
  - apply (proj1 (main_dispatch fresh_env args_prune_42 0%nat) eq_refl).
  - apply (proj1 (proj2 (main_dispatch fresh_env args_42 0%nat))
             eq_refl "42" eq_refl).
    discriminate.
  - apply (proj1 (proj1 (proj2 (proj2 (main_dispatch fresh_env default_args 0%nat)))
                    eq_refl (or_introl eq_refl))).
Defined.

(** C8 as stated fails: an empty [pr_number] is given, yet the help is
    printed and nothing is fetched. *)
Lemma main_empty_pr_number :
  main fresh_env args_empty 0%nat = (Ret tt, 0%nat, [EHelp]).
Proof. reflexivity. Qed.

(** [open_pr] on a fake environment: every conjunct evaluates. *)
Ltac by_evaluation := repeat split; reflexivity.

Lemma local_branch_of_open_pr_witness :
  exists r w' t,
    checkout_pr stale_env "42" "blender" "blender" 0%nat = (r, w', t)
    /\ In (EPrint (ESC ++ "[90mLocal branch  : PR/42/alice-feature-x" ++ ESC ++ "[0m")) t
    /\ commands t
       = ["git branch --show-current"; "git checkout main"; "git branch";
          "git branch -D PR/42/alice-feature-x";
          "git checkout -b PR/42/alice-feature-x main";
          "git pull --no-rebase --ff --no-edit --commit https://projects.blender.org/alice/blender feature-x"].
Proof.
  do 3 eexists. split; [reflexivity|]. split; [|reflexivity].
  refine (proj1 (proj2
            (local_branch_of_open_pr stale_env "42" "blender" "blender" 0%nat
               _ 1%nat (JStr "alice/blender") (JStr "alice") (JStr "feature-x")
               (JStr "main") (JStr "Fix") _ _ _ _ eq_refl))).
  by_evaluation.
Defined.



(* ================================================================== *)
(** ** Invariants of every run *)
(* ================================================================== *)

Section RunInvariants.

Variable E : Env.

Lemma FailFast_bind {A B} (m : M E A) (k : A -> M E B) :
  FailFast m -> (forall a, FailFast (k a)) -> FailFast (bind m k).
Proof.
  intros Hm Hk w. specialize (Hm w). unfold bind.
  destruct (m w) as [[r w1] t1]. unfold fail_fast, result_of, trace_of in *.
  cbn [fst snd] in *. destruct r as [a|e]; [|exact Hm].
  specialize (Hk a w1). unfold fail_fast, result_of, trace_of in Hk.
  destruct (k a w1) as [[r2 w2] t2]. cbn [fst snd] in *.
  destruct r2 as [b|e].
  - rewrite all_succeeded_app, Hm, Hk. reflexivity.
  - destruct Hk as [Hk|(pre & cmd & rc & out & -> & Hrc & Hpre & ->)].
    + left. rewrite all_succeeded_app, Hm, Hk. reflexivity.
    + right. exists (t1 ++ pre)%list, cmd, rc, out.
      rewrite app_assoc, all_succeeded_app, Hm, Hpre. auto.
Qed.

Lemma FailFast_run_cmd cmd capture : FailFast (run_cmd E cmd true capture).
Proof.
  intros w. unfold run_cmd. destruct (sh E cmd w) as [[rc out] w'].
  cbn [andb]. destruct (Z.eqb_spec rc 0) as [->|Hrc];
    unfold fail_fast, result_of, trace_of; cbn.
  - reflexivity.
  - right. exists [], cmd, rc, out. auto.
Qed.

Lemma FailFast_print line : FailFast (@print E line).
Proof. intros w. reflexivity. Qed.

Lemma FailFast_ret {A} (a : A) : FailFast (@ret E A a).
Proof. intros w. reflexivity. Qed.

Lemma FailFast_lift {A} (r : result A) : FailFast (@lift E A r).
Proof. intros w. destruct r; [reflexivity | now left]. Qed.

Lemma FailFast_raise {A} (e : exn) : FailFast (@raise E A e).
Proof. intros w. now left. Qed.

Lemma FailFast_fetch owner repo n : FailFast (fetch_pr_json E owner repo n).
Proof.
  intros w. unfold fetch_pr_json, try_except_HTTPError, http_get.
  destruct (urlopen_json E (pr_url owner repo n) w) as [[v|e] w'].
  - reflexivity.
  - destruct e; now left.
Qed.

(** One step of a proof that a computation is fail-fast. *)
Ltac fail_fast_step :=
  first
    [ apply FailFast_run_cmd | apply FailFast_print | apply FailFast_ret
    | apply FailFast_lift | apply FailFast_raise | apply FailFast_fetch
    | apply FailFast_bind; [|intros ?]
    | match goal with
      | |- FailFast (if ?b then _ else _) => destruct b
      | |- FailFast (match ?x with _ => _ end) => destruct x
      end ].

Lemma FailFast_merged_loop cur lines : FailFast (prune_merged_loop E cur lines).
Proof.
  induction lines as [|line rest IH]; cbn [prune_merged_loop].
  - apply FailFast_ret.
  - apply FailFast_bind; [|intros _; exact IH]. repeat fail_fast_step.
Qed.

Lemma FailFast_gone_loop lines : FailFast (prune_gone_loop E lines).
Proof.
  induction lines as [|line rest IH]; cbn [prune_gone_loop].
  - apply FailFast_ret.
  - apply FailFast_bind; [|intros _; exact IH]. repeat fail_fast_step.
Qed.

Lemma FailFast_prune : FailFast (prune_branches E).
Proof.
  unfold prune_branches, opt_splitlines.
  repeat first [ apply FailFast_merged_loop | apply FailFast_gone_loop
               | fail_fast_step ].
Qed.

Lemma FailFast_checkout n owner repo : FailFast (checkout_pr E n owner repo).
Proof.
  unfold checkout_pr, refresh_local_branch, checkout_base, delete_existing,
    create_and_pull, opt_splitlines.
  cbv zeta. repeat fail_fast_step.
Qed.

Lemma FailFast_main args : FailFast (main E args).
Proof.
  unfold main, print_help.
  destruct (prune args); [apply FailFast_prune|].
  destruct (pr_number args) as [n|]; [|intros w; reflexivity].
  destruct (negb (n =? "")); [apply FailFast_checkout | intros w; reflexivity].
Qed.

(** A command that failed can only be the last event. *)
Lemma failed_event_is_last (pre' : list event) e' pre cmd rc out post :
  all_succeeded pre' = true ->
  (pre' ++ [e'] = pre ++ ERun cmd rc out :: post)%list ->
  rc <> 0%Z ->
  post = [] /\ e' = ERun cmd rc out.
Proof.
  revert pre. induction pre' as [|x pre' IH]; intros pre Hall Heq Hrc.
  - destruct pre as [|y pre]; cbn in Heq.
    + injection Heq as -> <-. auto.
    + injection Heq as _ Heq. destruct pre; discriminate Heq.
  - destruct pre as [|y pre]; cbn in Heq.
    + injection Heq as -> _. cbn in Hall.
      apply andb_prop in Hall. destruct Hall as [H _].
      apply Z.eqb_eq in H. contradiction.
    + injection Heq as _ Heq. apply (IH pre); [|exact Heq|exact Hrc].
      destruct x; cbn in Hall; try exact Hall.
      apply andb_prop in Hall. tauto.
Qed.

Lemma all_succeeded_no_failure pre cmd rc out post :
  all_succeeded (pre ++ ERun cmd rc out :: post) = true -> rc = 0%Z.
Proof.
  rewrite all_succeeded_app. cbn. intros H.
  apply andb_prop in H. destruct H as [_ H].
  apply andb_prop in H. destruct H as [H _]. now apply Z.eqb_eq.
Qed.

(** X8.  Every command of the script runs with [check=True]: in every
    run of [main], whatever the arguments and the environment, a command
    that returns a non-zero code is the last event of the run (nothing is
    printed, run or fetched after it) and the run raises its
    [CalledProcessError]; a run that returns normally had no failing
    command. *)
Theorem main_stops_at_first_failure (args : Namespace) (w : world E) r w' t :
  main E args w = (r, w', t) ->
  (forall pre cmd rc out post,
     t = (pre ++ ERun cmd rc out :: post)%list -> rc <> 0%Z ->
     post = [] /\ r = Raise (CalledProcessError rc cmd))
  /\ (r = Ret tt -> all_succeeded t = true).
Proof.
  intros Hrun. pose proof (FailFast_main args w) as Hff.
  rewrite Hrun in Hff. unfold fail_fast, result_of, trace_of in Hff.
  cbn [fst snd] in Hff. split.
  - intros pre cmd rc out post -> Hrc.
    destruct r as [[]|e].
    + apply all_succeeded_no_failure in Hff. contradiction.
    + destruct Hff as [Hff|(pre' & c' & rc' & out' & Heq & _ & Hpre & ->)].
      * apply all_succeeded_no_failure in Hff. contradiction.
      * symmetry in Heq.
        destruct (failed_event_is_last _ _ _ _ _ _ _ Hpre Heq Hrc) as [-> He].
        injection He as -> -> _. auto.
  - intros ->. exact Hff.
Qed.

Lemma filter_http_app (t1 t2 : list event) :
  filter is_http (t1 ++ t2) = (filter is_http t1 ++ filter is_http t2)%list.
Proof. apply filter_app. Qed.

Lemma NoHttp_bind {A B} (m : M E A) (k : A -> M E B) :
  NoHttp m -> (forall a, NoHttp (k a)) -> NoHttp (bind m k).
Proof.
  intros Hm Hk w. specialize (Hm w). unfold bind.
  destruct (m w) as [[r w1] t1]. unfold trace_of in *. cbn [snd] in *.
  destruct r as [a|e]; [|exact Hm].
  specialize (Hk a w1). unfold trace_of in Hk.
  destruct (k a w1) as [[r2 w2] t2]. cbn [snd] in *.
  rewrite filter_http_app, Hm, Hk. reflexivity.
Qed.

Lemma NoHttp_run_cmd cmd check capture : NoHttp (run_cmd E cmd check capture).
Proof.
  intros w. unfold run_cmd. destruct (sh E cmd w) as [[rc out] w'].
  destruct (check && negb (rc =? 0)%Z); reflexivity.
Qed.

Lemma NoHttp_print line : NoHttp (@print E line).
Proof. intros w. reflexivity. Qed.

Lemma NoHttp_ret {A} (a : A) : NoHttp (@ret E A a).
Proof. intros w. reflexivity. Qed.

Lemma NoHttp_lift {A} (r : result A) : NoHttp (@lift E A r).
Proof. intros w. reflexivity. Qed.

Lemma NoHttp_raise {A} (e : exn) : NoHttp (@raise E A e).
Proof. intros w. reflexivity. Qed.

Ltac no_http_step :=
  first
    [ apply NoHttp_run_cmd | apply NoHttp_print | apply NoHttp_ret
    | apply NoHttp_lift | apply NoHttp_raise
    | apply NoHttp_bind; [|intros ?]
    | match goal with
      | |- NoHttp (if ?b then _ else _) => destruct b
      | |- NoHttp (match ?x with _ => _ end) => destruct x
      end ].

Lemma NoHttp_merged_loop cur lines : NoHttp (prune_merged_loop E cur lines).
Proof.
  induction lines as [|line rest IH]; cbn [prune_merged_loop].
  - apply NoHttp_ret.
  - apply NoHttp_bind; [|intros _; exact IH]. repeat no_http_step.
Qed.

Lemma NoHttp_gone_loop lines : NoHttp (prune_gone_loop E lines).
Proof.
  induction lines as [|line rest IH]; cbn [prune_gone_loop].
  - apply NoHttp_ret.
  - apply NoHttp_bind; [|intros _; exact IH]. repeat no_http_step.
Qed.

Lemma NoHttp_prune : NoHttp (prune_branches E).
Proof.
  unfold prune_branches, opt_splitlines.
  repeat first [ apply NoHttp_merged_loop | apply NoHttp_gone_loop
               | no_http_step ].
Qed.

(** The one request of [checkout_pr] opens its trace. *)
Lemma checkout_pr_request n owner repo (w : world E) :
  exists t', trace_of (checkout_pr E n owner repo w)
             = EHttp (pr_url owner repo n) :: t'
             /\ filter is_http t' = [].
Proof.
  assert (Hk : forall (k : json -> M E unit), (forall a, NoHttp (k a)) ->
             exists t', trace_of (bind (fetch_pr_json E owner repo n) k w)
                        = EHttp (pr_url owner repo n) :: t'
                        /\ filter is_http t' = []).
  { intros k Hk. unfold bind, fetch_pr_json, try_except_HTTPError, http_get.
    destruct (urlopen_json E (pr_url owner repo n) w) as [[v|e] w0].
    - specialize (Hk v w0). unfold trace_of in *.
      destruct (k v w0) as [[r2 w2] t2]. cbn [snd] in *.
      exists t2. split; [reflexivity | exact Hk].
    - destruct e; cbn; eexists; (split; [reflexivity|]); reflexivity. }
  unfold checkout_pr. apply Hk. intros pr_data.
  unfold refresh_local_branch, checkout_base, delete_existing,
    create_and_pull, opt_splitlines.
  cbv zeta. repeat no_http_step.
Qed.

(** X9.  [main] talks to the forge at most once: the prune flow makes no
    HTTP request at all, the help path neither, and the checkout flow
    makes exactly one, to the pulls endpoint of the given owner,
    repository and number, before it prints or runs anything. *)
Theorem main_http_requests (args : Namespace) (w : world E) :
  (prune args = true -> filter is_http (trace_of (main E args w)) = [])
  /\ (prune args = false ->
      forall n, pr_number args = Some n -> n <> "" ->
        exists t', trace_of (main E args w)
                   = EHttp (pr_url (owner args) (repo args) n) :: t'
                   /\ filter is_http t' = [])
  /\ (prune args = false ->
      pr_number args = None \/ pr_number args = Some "" ->
      filter is_http (trace_of (main E args w)) = []).
Proof.
  unfold main. split; [|split].
  - intros ->. apply NoHttp_prune.
  - intros -> n -> Hn. apply String.eqb_neq in Hn. rewrite Hn. cbn [negb].
    apply checkout_pr_request.
  - intros -> [-> | ->]; reflexivity.
Qed.

End RunInvariants.

(* ================================================================== *)
(** ** The flows on their normal path *)
(* ================================================================== *)


Section FlowFacts.

Variable E : Env.

(** X1.  [run_cmd] issues exactly the one command it is given and leaves
    the world as the shell did.  It raises [CalledProcessError] exactly
    when [check] is set and the return code is not 0; otherwise it
    returns [None] without capture and the trimmed output with capture,
    which has no whitespace at either end and is empty exactly when the
    output is all whitespace. *)
Theorem run_cmd_contract (cmd : string) (check capture : bool) (w : world E) :
  exists rc out w',
    sh E cmd w = (rc, out, w')
    /\ trace_of (run_cmd E cmd check capture w) = [ERun cmd rc out]
    /\ world_of (run_cmd E cmd check capture w) = w'
    /\ (check = true -> rc <> 0%Z ->
        result_of (run_cmd E cmd check capture w)
        = Raise (CalledProcessError rc cmd))
    /\ (check = false \/ rc = 0%Z ->
        result_of (run_cmd E cmd check capture w)
        = Ret (if capture then Some (PyStr.strip out) else None))
    /\ PyStr.lstrip (PyStr.strip out) = PyStr.strip out
    /\ PyStr.rstrip (PyStr.strip out) = PyStr.strip out
    /\ (PyStr.strip out = "" <-> PyStr.lstrip out = "").
Proof.
  unfold run_cmd. destruct (sh E cmd w) as [[rc out] w'].
  exists rc, out, w'. split; [reflexivity|].
  destruct (ListingFacts.strip_is_stripped out) as [Hl Hr].
  destruct check; cbn [andb]; destruct (Z.eqb_spec rc 0) as [->|Hrc];
    cbn [negb]; (repeat split; try reflexivity; try assumption;
                 try apply ListingFacts.strip_empty_iff;
                 try (intros; congruence); try (intros; tauto)).
  all: try (intros [H|H]; [discriminate H | contradiction]).
Qed.





(** X10.  Records of the wrong shape: a document that is not an object
    makes [checkout_pr] raise [AttributeError] right after the fetch; a
    merged record whose [merged_by] is present but not an object (a JSON
    [null], say) raises it after the first two lines of the merged
    notice; an open record whose [head] is present but not an object
    raises [TypeError] before the banner.  No command is run in any of
    these cases. *)
Theorem checkout_pr_wrong_shape n owner repo (w : world E) v w0 :
  urlopen_json E (pr_url owner repo n) w = (Ret v, w0) ->
  ((forall fields, v <> JObj fields) ->
   checkout_pr E n owner repo w
   = (Raise AttributeError, w0, [EHttp (pr_url owner repo n)]))
  /\ (forall fields merged_by,
        v = JObj fields -> merged_flag fields = true ->
        Py.lookup "merged_by" fields = Some merged_by ->
        (forall by_fields, merged_by <> JObj by_fields) ->
        checkout_pr E n owner repo w
        = (Raise AttributeError, w0,
           [EHttp (pr_url owner repo n);
            EPrint (ESC ++ "[92mPR #" ++ n ++ " is already merged." ++ ESC ++ "[0m");
            EPrint ("Merged at: " ++ fmt E (Py.dict_get fields "merged_at" JNull))]))
  /\ (forall fields head,
        v = JObj fields -> merged_flag fields = false ->
        closed_flag fields = false ->
        Py.lookup "head" fields = Some head ->
        (forall head_fields, head <> JObj head_fields) ->
        checkout_pr E n owner repo w
        = (Raise TypeError, w0, [EHttp (pr_url owner repo n)])).
Proof.
  intros Hhttp. split; [|split].
  - intros Hv. unfold checkout_pr, bind.
    rewrite (fetch_pr_json_ok E _ _ _ _ _ _ Hhttp).
    destruct v; try reflexivity. destruct (Hv fields eq_refl).
  - intros fields merged_by -> Hm Hby Hshape.
    unfold merged_flag in Hm. unfold checkout_pr, bind.
    rewrite (fetch_pr_json_ok E _ _ _ _ _ _ Hhttp).
    cbn [lift Py.get]. rewrite Hm. unfold Py.dict_get at 2. rewrite Hby.
    destruct merged_by; try reflexivity. destruct (Hshape fields0 eq_refl).
  - intros fields head -> Hm Hc Hhead Hshape.
    unfold merged_flag in Hm. unfold closed_flag in Hc.
    unfold checkout_pr.
    apply (bind_run E _ _ _ _ _ _ _ _ _ (fetch_pr_json_ok E _ _ _ _ _ _ Hhttp)).
    cbv beta. cbn [Py.get].
    rewrite bind_lift_ret, Hm, bind_lift_ret, Hc.
    unfold Py.getitem at 1. rewrite Hhead. rewrite bind_lift_ret.
    destruct head; try reflexivity. destruct (Hshape fields0 eq_refl).
Qed.

(** X11.  The merged loop never hands the shell a name that starts with
    the marker or a space: every command it runs is [git branch -d]
    followed by a name whose first character is neither [*] nor a
    space. *)
Theorem merged_loop_names_are_stripped (cur : option string)
    (lines : list string) (w : world E) (c : string) :
  In c (commands (trace_of (prune_merged_loop E cur lines w))) ->
  exists d r, c = safe_delete (String d r) /\ d <> "*"%char /\ d <> " "%char.
Proof.
  intros Hin.
  destruct (prune_merged_loop E cur lines w) as [[r w'] t] eqn:Hrun.
  pose proof (prune_merged_loop_commands E _ _ _ _ _ _ Hrun) as Hall.
  rewrite Forall_forall in Hall.
  destruct (Hall _ Hin) as (line & _ & -> & Hne & _).
  destruct (ListingFacts.strip_marker_head line) as [H|(d & r0 & H & Hd)];
    [contradiction|].
  rewrite H. eauto.
Qed.






(** The commands of the git phase. *)
Lemma refresh_local_branch_commands n pr lb pr_repo pr_branch base
    (w : world E) r w' t c :
  refresh_local_branch E n pr lb pr_repo pr_branch base w = (r, w', t) ->
  In c (commands t) ->
  c = "git branch --show-current" \/ c = to_base E base
  \/ c = "git branch" \/ c = force_delete lb
  \/ c = create_branch E lb base \/ c = pull_pr E pr_repo pr_branch.
Proof.
  intros Href Hin.
  destruct (refresh_local_branch_run E _ _ _ _ _ _ _ _ _ _ Href)
    as (r1 & w1 & t1 & Hbase & Hrest).
  assert (H1 := fun H => checkout_base_commands E _ _ _ _ _ c Hbase H).
  destruct r1 as [[]|e1]; [|destruct Hrest as [_ ->]; intuition].
  destruct Hrest as (r2 & w2 & t2 & Hdel & Hrest).
  assert (H2 := fun H => delete_existing_commands E _ _ _ _ _ c Hdel H).
  destruct r2 as [[]|e2].
  - destruct Hrest as (t3 & Hcp & ->).
    assert (H3 := fun H => create_and_pull_commands E _ _ _ _ _ _ _ _ _ _ c Hcp H).
    rewrite !commands_app in Hin.
    apply in_app_or in Hin. destruct Hin as [Hin|Hin]; [intuition|].
    apply in_app_or in Hin. destruct Hin as [Hin|Hin]; intuition.
  - destruct Hrest as [_ ->]. rewrite commands_app in Hin.
    apply in_app_or in Hin. destruct Hin as [Hin|Hin]; intuition.
Qed.

(** X12.  Whatever the forge answers and git does, a command that
    [checkout_pr] runs comes from an open record that has the four
    fields of lines 53-56, and is one of six commands built from the
    pull request number and these very fields.  When the number and the
    four field values are plain words (letters, digits, [-], [.], [/]
    and [_]), so is the local branch, which lies under [PR/<number>/],
    and the command consists of exactly the words listed: a force
    deletion names that one local branch, and no command has further
    words. *)
Theorem checkout_pr_command_words n owner repo (w : world E) (c : string) :
  In c (commands (trace_of (checkout_pr E n owner repo w))) ->
  exists fields w0 pr_repo pr_author pr_branch base,
    urlopen_json E (pr_url owner repo n) w = (Ret (JObj fields), w0)
    /\ merged_flag fields = false /\ closed_flag fields = false
    /\ subscript (JObj fields) ["head"; "repo"; "full_name"] = Ret pr_repo
    /\ subscript (JObj fields) ["head"; "repo"; "owner"; "username"]
       = Ret pr_author
    /\ subscript (JObj fields) ["head"; "ref"] = Ret pr_branch
    /\ subscript (JObj fields) ["base"; "ref"] = Ret base
    /\ let lb := local_branch_name n (fmt E pr_author) (fmt E pr_branch) in
       (c = "git branch --show-current" \/ c = to_base E base
        \/ c = "git branch" \/ c = force_delete lb
        \/ c = create_branch E lb base \/ c = pull_pr E pr_repo pr_branch)
       /\ (plain_word n = true ->
           plain_word (fmt E pr_repo) = true ->
           plain_word (fmt E pr_author) = true ->
           plain_word (fmt E pr_branch) = true ->
           plain_word (fmt E base) = true ->
           plain_word lb = true
           /\ String.prefix ("PR/" ++ n ++ "/") lb = true
           /\ In (PyStr.split c)
                [["git"; "branch"; "--show-current"];
                 ["git"; "checkout"; fmt E base];
                 ["git"; "branch"];
                 ["git"; "branch"; "-D"; lb];
                 ["git"; "checkout"; "-b"; lb; fmt E base];
                 ["git"; "pull"; "--no-rebase"; "--ff"; "--no-edit";
                  "--commit";
                  "https://projects.blender.org/" ++ fmt E pr_repo;
                  fmt E pr_branch]]).
Proof.
  intros Hin.
  destruct (urlopen_json E (pr_url owner repo n) w) as [[v|e] w0] eqn:Hhttp.
  - destruct v as [| | | | | |fields];
      try (exfalso; revert Hin; unfold checkout_pr, bind;
           rewrite (fetch_pr_json_ok E _ _ _ _ _ _ Hhttp);
           cbn; tauto).
    destruct (merged_flag fields) eqn:Hm.
    { exfalso. revert Hin. unfold merged_flag in Hm.
      unfold checkout_pr, bind.
      rewrite (fetch_pr_json_ok E _ _ _ _ _ _ Hhttp).
      cbn [lift Py.get]. rewrite Hm.
      destruct (Py.dict_get fields "merged_by" (JObj [])); cbn; tauto. }
    destruct (closed_flag fields) eqn:Hc.
    { exfalso. revert Hin. unfold merged_flag in Hm. unfold closed_flag in Hc.
      unfold checkout_pr, bind.
      rewrite (fetch_pr_json_ok E _ _ _ _ _ _ Hhttp).
      cbn [lift Py.get]. rewrite Hm, Hc. cbn. tauto. }
    pose proof (checkout_pr_open E n owner repo w fields w0 Hhttp Hm Hc)
      as Hopen.
    cbv zeta in Hopen.
    destruct (subscript (JObj fields) ["head"; "repo"; "full_name"])
      as [pr_repo|] eqn:Hrepo;
      [|destruct Hopen as [e' He]; rewrite He in Hin; cbn in Hin; tauto].
    destruct (subscript (JObj fields) ["head"; "repo"; "owner"; "username"])
      as [pr_author|] eqn:Hauthor;
      [|destruct Hopen as [e' He]; rewrite He in Hin; cbn in Hin; tauto].
    destruct (subscript (JObj fields) ["head"; "ref"]) as [pr_branch|]
      eqn:Hbranch;
      [|destruct Hopen as [e' He]; rewrite He in Hin; cbn in Hin; tauto].
    destruct (subscript (JObj fields) ["base"; "ref"]) as [base|] eqn:Hbase;
      [|destruct Hopen as [e' He]; rewrite He in Hin; cbn in Hin; tauto].
    destruct (subscript (JObj fields) ["title"]) as [title|];
      [|destruct Hopen as [e' He]; rewrite He in Hin; cbn in Hin; tauto].
    destruct (refresh_local_branch E n (JObj fields)
                (local_branch_name n (fmt E pr_author) (fmt E pr_branch))
                pr_repo pr_branch base w0) as [[r0 w1] t0] eqn:Href.
    rewrite (Hopen _ _ _ eq_refl) in Hin. unfold banner in Hin. cbn in Hin.
    pose proof (refresh_local_branch_commands _ _ _ _ _ _ _ _ _ _ _ Href Hin)
      as Hshape.
    exists fields, w0, pr_repo, pr_author, pr_branch, base.
    do 7 (split; [reflexivity || assumption|]).
    cbv zeta. split; [exact Hshape|].
    intros Pn Prepo Pauthor Pbranch Pbase.
    pose proof (WordFacts.plain_local_branch _ _ _ Pn Pauthor Pbranch) as Plb.
    destruct (WordFacts.plain_word_inv _ Plb) as (Nlb & _ & Slb).
    destruct (WordFacts.plain_word_inv _ Prepo) as (_ & _ & Srepo).
    destruct (WordFacts.plain_word_inv _ Pbranch) as (Nbranch & _ & Sbranch).
    destruct (WordFacts.plain_word_inv _ Pbase) as (Nbase & _ & Sbase).
    split; [exact Plb|].
    split; [apply ListingFacts.local_branch_prefix|].
    destruct Hshape as [-> | [-> | [-> | [-> | [-> | ->]]]]].
    + left. reflexivity.
    + right; left. symmetry.
      exact (WordFacts.words_checkout _ Sbase Nbase).
    + do 2 right; left. reflexivity.
    + do 3 right; left. symmetry.
      exact (WordFacts.words_force_delete _ Slb Nlb).
    + do 4 right; left. symmetry.
      exact (WordFacts.words_checkout_b _ _ Slb Nlb Sbase Nbase).
    + do 5 right; left. symmetry.
      exact (WordFacts.words_pull _ _ Srepo Sbranch Nbranch).
  - exfalso. revert Hin.
    destruct e;
      first
        [ rewrite (checkout_pr_fetch_raises E _ _ _ _ _ _ _
                     (fetch_pr_json_http_error E _ _ _ _ _ _ _ Hhttp))
        | rewrite (checkout_pr_fetch_raises E _ _ _ _ _ _ _
                     (fetch_pr_json_uncaught E _ _ _ _ _ _ Hhttp
                        ltac:(intros; discriminate))) ];
      cbn; tauto.
Qed.

End FlowFacts.

(* ================================================================== *)
(** ** The further properties on the fake environments *)
(* ================================================================== *)

Lemma run_cmd_contract_witness :
  result_of (run_cmd stale_env "git branch --show-current" true true 0%nat)
  = Ret (Some "dev").
Proof.
  destruct (run_cmd_contract stale_env "git branch --show-current" true true 0%nat)
    as (rc & out & w' & Hsh & _ & _ & _ & Hok & _).
  injection Hsh as <- <- <-. apply Hok. now right.
Defined.

Lemma listing_round_trip_witness :
  existing_branches (listing stale_branches)
  = ["dev"; "main"; "PR/42/alice-feature-x"].
Proof.
  apply (proj1 (ListingFacts.listing_round_trip stale_branches "main" eq_refl)).
Defined.


Lemma gone_names_of_verbose_listing_witness :
  gone_branch_names (map verbose_line verbose_example) = ["main"].
Proof.
  apply (ListingFacts.gone_names_of_verbose_listing verbose_example eq_refl).
Defined.




Lemma main_stops_at_first_failure_witness :
  let run := main conflict_env args_42 0%nat in
  commands (trace_of run) = ["git branch --show-current"; "git checkout main"]
  /\ result_of run = Raise (CalledProcessError 1 "git checkout main").
Proof.
  intros run. split; [reflexivity|].
  apply (proj1 (main_stops_at_first_failure conflict_env args_42 0%nat
                  (result_of run) (world_of run) (trace_of run) eq_refl)
           (firstn 6 (trace_of run)) "git checkout main" 1%Z "" []
           eq_refl).
  discriminate.
Defined.

Lemma main_http_requests_witness :
  filter is_http (trace_of (main prune_env args_prune_42 0%nat)) = []
  /\ exists t', trace_of (main stale_env args_42 0%nat) = EHttp pr42 :: t'
                /\ filter is_http t' = [].
Proof.
  split.
  - apply (proj1 (main_http_requests prune_env args_prune_42 0%nat) eq_refl).
  - apply (proj1 (proj2 (main_http_requests stale_env args_42 0%nat))
             eq_refl "42" eq_refl).
    discriminate.
Defined.

Lemma checkout_pr_wrong_shape_witness :
  checkout_pr prune_env "42" "blender" "blender" 0%nat
  = (Raise AttributeError, 1%nat, [EHttp pr42])
  /\ checkout_pr null_merger_env "42" "blender" "blender" 0%nat
     = (Raise AttributeError, 1%nat,
        [EHttp pr42;
         EPrint (ESC ++ "[92mPR #42 is already merged." ++ ESC ++ "[0m");
         EPrint "Merged at: None"]).
Proof.
  split.
  - apply (proj1 (checkout_pr_wrong_shape prune_env "42" "blender" "blender"
                    0%nat JNull 1%nat eq_refl)).
    discriminate.
  - apply (proj1 (proj2 (checkout_pr_wrong_shape null_merger_env "42" "blender"
                           "blender" 0%nat _ 1%nat eq_refl))
             _ JNull eq_refl eq_refl eq_refl).
    discriminate.
Defined.

Lemma merged_loop_names_are_stripped_witness :
  exists d r, "git branch -d old" = safe_delete (String d r)
              /\ d <> "*"%char /\ d <> " "%char.
Proof.
  apply (merged_loop_names_are_stripped prune_env (Some "dev")
           (PyStr.splitlines (PyStr.strip (listing merged_branches_example)))
           0%nat).
  simpl. auto.
Defined.

Lemma checkout_pr_command_words_witness :
  let c := "git branch -D PR/42/alice-feature-x" in
  In c (commands (trace_of (checkout_pr stale_env "42" "blender" "blender" 0%nat)))
  /\ plain_word "PR/42/alice-feature-x" = true
  /\ In (PyStr.split c)
       [["git"; "branch"; "--show-current"];
        ["git"; "checkout"; "main"];
        ["git"; "branch"];
        ["git"; "branch"; "-D"; "PR/42/alice-feature-x"];
        ["git"; "checkout"; "-b"; "PR/42/alice-feature-x"; "main"];
        ["git"; "pull"; "--no-rebase"; "--ff"; "--no-edit"; "--commit";
         "https://projects.blender.org/alice/blender"; "feature-x"]].
Proof.
  intros c.
  assert (Hin : In c (commands (trace_of (checkout_pr stale_env "42" "blender"
                                            "blender" 0%nat))))
    by (simpl; auto 6).
  split; [exact Hin|].
  destruct (checkout_pr_command_words stale_env "42" "blender" "blender"
              0%nat c Hin)
    as (fields & w0 & pr_repo & pr_author & pr_branch & base
        & Hhttp & _ & _ & Hrepo & Hauthor & Hbranch & Hbase & _ & Hplain).
  injection Hhttp as <- <-.
  injection Hrepo as <-. injection Hauthor as <-.
  injection Hbranch as <-. injection Hbase as <-.
  destruct (Hplain eq_refl eq_refl eq_refl eq_refl eq_refl)
    as (Plb & _ & Hwords).
  split; [exact Plb | exact Hwords].
Defined.

